(** * Camect hub integration: event dispatch, derived views and toggles

    A shallow embedding of the stateful pieces of the Camect integration
    (camecthub.py, camera.py, binary_sensor.py, switch.py) and the
    properties its specification states about them.

    Python objects that are shared and mutated in place (the hub, its
    camera records) live in one store, [World]; methods are computations
    in a state-and-exception monad over that store. *)

From Stdlib Require Import ZArith String Ascii List Bool Lia.
From stdpp Require Import base option list strings gmap.

Local Open Scope string_scope.
Local Open Scope Z_scope.
Local Open Scope list_scope.

Set Warnings "-register-all".

(** ** Python values and operators *)

(** The values a decoded vendor event can carry: JSON null, booleans,
    integers, strings and arrays (floats and nested objects are left
    out). *)
Inductive value : Type :=
  | VNone
  | VBool (b : bool)
  | VInt (z : Z)
  | VStr (s : string)
  | VList (l : list value).

(** The exceptions the modelled code can raise. *)
Inductive exn : Type :=
  | KeyError (key : string)
  | TypeError.

Inductive result (A : Type) : Type :=
  | Ret (a : A)
  | Raise (e : exn).
Arguments Ret {A} a.
Arguments Raise {A} e.

(** [needle in hay] on two [str] operands: substring test. *)
Fixpoint str_in (needle hay : string) : bool :=
  if String.prefix needle hay then true
  else match hay with
       | EmptyString => false
       | String _ rest => str_in needle rest
       end.

(** [a == b]; a [bool] compares as the integer 0 or 1. *)
Fixpoint py_eq (a b : value) {struct a} : bool :=
  match a, b with
  | VNone, VNone => true
  | VBool x, VBool y => Bool.eqb x y
  | VBool x, VInt z => Z.eqb (Z.b2z x) z
  | VInt z, VBool x => Z.eqb z (Z.b2z x)
  | VInt x, VInt y => Z.eqb x y
  | VStr s, VStr t => String.eqb s t
  | VList l1, VList l2 =>
      (fix go (xs ys : list value) {struct xs} : bool :=
         match xs, ys with
         | [], [] => true
         | x :: xs', y :: ys' => py_eq x y && go xs' ys'
         | _, _ => false
         end) l1 l2
  | _, _ => false
  end.

(** [a in b]: substring test when [b] is a [str] (the left operand must
    then be a [str] too), membership by [==] when [b] is a list, and a
    [TypeError] for the operands that are not iterable. *)
Definition py_in (a b : value) : result bool :=
  match b with
  | VStr hay =>
      match a with
      | VStr needle => Ret (str_in needle hay)
      | _ => Raise TypeError
      end
  | VList l => Ret (existsb (py_eq a) l)
  | _ => Raise TypeError
  end.

(** [a in (x, y, ...)]: membership in a tuple literal never raises. *)
Definition py_in_tuple (a : value) (t : list value) : bool :=
  existsb (py_eq a) t.

(** Truth value of an object. *)
Definition truthy (v : value) : bool :=
  match v with
  | VNone => false
  | VBool b => b
  | VInt z => negb (Z.eqb z 0)
  | VStr s => negb (String.eqb s "")
  | VList l => match l with [] => false | _ => true end
  end.

(** [a or b]. *)
Definition py_or (a b : value) : value := if truthy a then a else b.

(** ** The state-and-exception monad

    A computation takes the store and gives back an outcome together
    with the store as the computation left it: what was written before
    an exception stays written. *)
Definition M (S A : Type) : Type := S -> result A * S.

Definition ret {S A} (a : A) : M S A := fun s => (Ret a, s).

Definition raise {S A} (e : exn) : M S A := fun s => (Raise e, s).

Definition bind {S A B} (m : M S A) (k : A -> M S B) : M S B :=
  fun s => match m s with
           | (Ret a, s') => k a s'
           | (Raise e, s') => (Raise e, s')
           end.

Definition gets {S A} (f : S -> A) : M S A := fun s => (Ret (f s), s).

Definition modify {S} (f : S -> S) : M S unit := fun s => (Ret tt, f s).

Definition lift_result {S A} (r : result A) : M S A := fun s => (r, s).

(** [try: body except Exception as ex: handler ex]. *)
Definition try_except {S A} (body : M S A) (handler : exn -> M S A) : M S A :=
  fun s => match body s with
           | (Ret a, s') => (Ret a, s')
           | (Raise e, s') => handler e s'
           end.

(** [for x in l: body x]; [l] is the sequence as it is when the loop
    starts. *)
Fixpoint for_each {S A} (l : list A) (body : A -> M S unit) : M S unit :=
  match l with
  | [] => ret tt
  | x :: rest => bind (body x) (fun _ => for_each rest body)
  end.

(** The monad is used through stdpp's [x ← c; k] and [c;; k]. *)
#[global] Instance M_ret {S} : MRet (M S) := fun A a => ret a.
#[global] Instance M_bind {S} : MBind (M S) := fun A B k m => bind m k.

(** [d[key]] on a dict with string keys. *)
Definition dict_get {S} (d : gmap string value) (key : string) : M S value :=
  match d !! key with
  | Some v => ret v
  | None => raise (KeyError key)
  end.

(** ** Constants

    [homeassistant.const.ATTR_MODE], [camera.DOMAIN] and [switch.DOMAIN]
    come from the host platform. *)
Definition ATTR_MODE : string := "mode".
Definition CAMERA_DOMAIN : string := "camera".
Definition SWITCH_DOMAIN : string := "switch".

(** The integration's own constants module is taken as a parameter of
    the development: every definition below reads its constants from a
    [Consts] record. *)
Record Consts : Type := mkConsts {
  DOMAIN : string;
  ATTR_MODE_DEFAULT : string;
  ATTR_MODE_HOME : string;
  ATTR_MODE_REASON : string;
  ATTR_ALERT : string;
  ATTR_CAM_OFFLINE : string;
  ATTR_CAM_ONLINE : string;
  ATTR_UNKNOWN_OBJ : string;
  ATTR_CAMECT_EVENT : string;
  ATTR_ALERT_DISABLED : string;
  ATTR_MOTION : string
}.

(** ** Data model *)

(** One entry of the vendor's camera listing ([hub.api.list_cameras]),
    taken well-typed: strings for id, name and url, a string or null for
    make and model, integers for the sizes, booleans for the flags. *)
Record CamJson : Type := mkCamJson {
  j_id : string;
  j_name : string;
  j_make : option string;
  j_model : option string;
  j_url : string;
  j_width : Z;
  j_height : Z;
  j_is_alert_disabled : bool;
  j_disabled : bool
}.

(** [Camera] (camera.py); [cam_entity_id] is its [entity_id]. Observers
    are referred to by entity id; times are microseconds on the wall
    clock. *)
Record Camera : Type := mkCamera {
  device_id : string;
  _id : string;
  cam_entity_id : string;
  _name : string;
  _make : string;
  _model : string;
  _url : string;
  _width : Z;
  _height : Z;
  is_alert_disabled : bool;
  _disabled : bool;
  alert_switch : list string;
  motion_sensor : list string;
  last_motion : option Z;
  last_detected_obj : value;
  offline : bool
}.

(** [CamectHub] (camecthub.py). *)
Record CamectHub : Type := mkHub {
  id : string;
  entity_id : string;
  hub_id : string;
  info : gmap string value;
  hub_name : string;
  mode : value;
  modeswitch : list string;
  cameras : list Camera
}.

(** What [fire_camera_event] puts under [ATTR_DEVICE_ID]: the f-string
    [f"{camera.DOMAIN}.{self.id}_{evt['cam_id']}"], kept as its parts, or
    the hub's own entity id. *)
Inductive DeviceRef : Type :=
  | CameraEntity (hub_ident : string) (cam_ident : value)
  | HubEntity (ent : string).

Record BusData : Type := mkBusData {
  data_device_id : DeviceRef;
  data_type : string;
  data_raw : gmap string value
}.

Inductive LogEntry : Type :=
  | LogWarnUnknownMode (desc : value)
  | LogWarnUnhandled (evt : gmap string value)
  | LogInfoOffline (cam_name cam_ident : value)
  | LogInfoOnline (cam_name cam_ident : value)
  | LogInfoFiring (data : BusData)
  | LogException (evt : gmap string value) (ex : exn).

(** Commands sent to the vendor client. *)
Inductive ApiCall : Type :=
  | enable_alert (cam_ident reason : string)
  | disable_alert (cam_ident reason : string)
  | set_mode (new_mode reason : string).

(** The store: the hub object with its camera records, and the
    collaborators the code talks to: the wall clock, the host's update
    queue ([schedule_update_ha_state]) and event bus, the logger, and the
    vendor client (commands sent, and what it currently reports). The
    collaborators accept every call, and the clock stands still while
    one method runs. *)
Record World : Type := mkWorld {
  hub : CamectHub;
  clock : Z;
  scheduled : list string;
  bus : list (string * BusData);
  log : list LogEntry;
  api_calls : list ApiCall;
  vendor_info : gmap string value;
  vendor_cameras : list CamJson
}.

(** Field updates. *)
Definition with_last_motion (t : option Z) (c : Camera) : Camera :=
  mkCamera (device_id c) (_id c) (cam_entity_id c) (_name c) (_make c)
    (_model c) (_url c) (_width c) (_height c) (is_alert_disabled c)
    (_disabled c) (alert_switch c) (motion_sensor c) t
    (last_detected_obj c) (offline c).

Definition with_last_detected_obj (v : value) (c : Camera) : Camera :=
  mkCamera (device_id c) (_id c) (cam_entity_id c) (_name c) (_make c)
    (_model c) (_url c) (_width c) (_height c) (is_alert_disabled c)
    (_disabled c) (alert_switch c) (motion_sensor c) (last_motion c)
    v (offline c).

Definition with_offline (b : bool) (c : Camera) : Camera :=
  mkCamera (device_id c) (_id c) (cam_entity_id c) (_name c) (_make c)
    (_model c) (_url c) (_width c) (_height c) (is_alert_disabled c)
    (_disabled c) (alert_switch c) (motion_sensor c) (last_motion c)
    (last_detected_obj c) b.

Definition with_alert_switch (l : list string) (c : Camera) : Camera :=
  mkCamera (device_id c) (_id c) (cam_entity_id c) (_name c) (_make c)
    (_model c) (_url c) (_width c) (_height c) (is_alert_disabled c)
    (_disabled c) l (motion_sensor c) (last_motion c)
    (last_detected_obj c) (offline c).

Definition with_motion_sensor (l : list string) (c : Camera) : Camera :=
  mkCamera (device_id c) (_id c) (cam_entity_id c) (_name c) (_make c)
    (_model c) (_url c) (_width c) (_height c) (is_alert_disabled c)
    (_disabled c) (alert_switch c) l (last_motion c)
    (last_detected_obj c) (offline c).

(** The assignments of [Camera.async_update] for one listing entry. *)
Definition with_json (j : CamJson) (c : Camera) : Camera :=
  mkCamera (device_id c) (_id c) (cam_entity_id c) (j_name j)
    (default "" (j_make j)) (default "" (j_model j)) (j_url j)
    (j_width j) (j_height j) (j_is_alert_disabled j) (j_disabled j)
    (alert_switch c) (motion_sensor c) (last_motion c)
    (last_detected_obj c) (offline c).

Definition hub_with_mode (m : value) (h : CamectHub) : CamectHub :=
  mkHub (id h) (entity_id h) (hub_id h) (info h) (hub_name h) m
    (modeswitch h) (cameras h).

Definition hub_with_info (i : gmap string value) (h : CamectHub) : CamectHub :=
  mkHub (id h) (entity_id h) (hub_id h) i (hub_name h) (mode h)
    (modeswitch h) (cameras h).

Definition hub_with_modeswitch (l : list string) (h : CamectHub) : CamectHub :=
  mkHub (id h) (entity_id h) (hub_id h) (info h) (hub_name h) (mode h)
    l (cameras h).

Definition hub_with_cameras (cs : list Camera) (h : CamectHub) : CamectHub :=
  mkHub (id h) (entity_id h) (hub_id h) (info h) (hub_name h) (mode h)
    (modeswitch h) cs.

Definition with_hub (h : CamectHub) (w : World) : World :=
  mkWorld h (clock w) (scheduled w) (bus w) (log w) (api_calls w)
    (vendor_info w) (vendor_cameras w).

Definition with_scheduled (l : list string) (w : World) : World :=
  mkWorld (hub w) (clock w) l (bus w) (log w) (api_calls w)
    (vendor_info w) (vendor_cameras w).

Definition with_bus (l : list (string * BusData)) (w : World) : World :=
  mkWorld (hub w) (clock w) (scheduled w) l (log w) (api_calls w)
    (vendor_info w) (vendor_cameras w).

Definition with_log (l : list LogEntry) (w : World) : World :=
  mkWorld (hub w) (clock w) (scheduled w) (bus w) l (api_calls w)
    (vendor_info w) (vendor_cameras w).

Definition with_api_calls (l : list ApiCall) (w : World) : World :=
  mkWorld (hub w) (clock w) (scheduled w) (bus w) (log w) l
    (vendor_info w) (vendor_cameras w).

(** ** Primitive effects *)

(** [datetime.now()]. *)
Definition datetime_now : M World Z := gets clock.

(** [entity.schedule_update_ha_state()]: the entity is queued for a
    state refresh. *)
Definition schedule_update_ha_state (ent : string) : M World unit :=
  modify (fun w => with_scheduled (scheduled w ++ [ent]) w).

(** [_LOGGER.warning/info/exception]. *)
Definition logger (e : LogEntry) : M World unit :=
  modify (fun w => with_log (log w ++ [e]) w).

(** [self.hass.bus.async_fire(name, data)]. *)
Definition bus_async_fire (name : string) (data : BusData) : M World unit :=
  modify (fun w => with_bus (bus w ++ [(name, data)]) w).

(** [hass.async_add_executor_job(self.hub.api.<command>, ...)]. *)
Definition api_call (c : ApiCall) : M World unit :=
  modify (fun w => with_api_calls (api_calls w ++ [c]) w).

(** Attribute assignment on the camera object at position [i] of
    [hub.cameras]. *)
Definition modify_cam (i : nat) (f : Camera -> Camera) : M World unit :=
  modify (fun w => with_hub (hub_with_cameras (alter f i (cameras (hub w))) (hub w)) w).

(** [for cam in self.cameras: body]: the body gets the position of the
    object in the store, where it writes, and the object as the loop
    reads it. *)
Fixpoint for_cameras_from (i : nat) (cams : list Camera)
    (body : nat -> Camera -> M World unit) : M World unit :=
  match cams with
  | [] => ret tt
  | c :: rest => body i c;; for_cameras_from (S i) rest body
  end.

Definition for_cameras (body : nat -> Camera -> M World unit) : M World unit :=
  cams ← gets (fun w => cameras (hub w));
  for_cameras_from 0 cams body.

(** ** The hub, camera records and their views *)

Section Integration.

Variable K : Consts.

(** [CamectHub.__init__]: the fields before [async_initialize_hub]. *)
Definition CamectHub_init : CamectHub :=
  mkHub "" "" "" ∅ "" (VStr (ATTR_MODE_DEFAULT K)) [] [].

(** [Camera.__init__], up to the append to [hub.cameras]. *)
Definition Camera_init (h : CamectHub) (json : CamJson) : Camera :=
  let ident := DOMAIN K +:+ "_" +:+ hub_id h +:+ "_" +:+ j_id json in
  mkCamera (j_id json) ident (CAMERA_DOMAIN +:+ "." +:+ ident)
    (j_name json) (default "" (j_make json)) (default "" (j_model json))
    (j_url json) (j_width json) (j_height json)
    (j_is_alert_disabled json) (j_disabled json) [] [] None (VStr "") false.

(** [Camera(hub, json)]: the new record is appended to [hub.cameras]. *)
Definition new_Camera (json : CamJson) : M World unit :=
  modify (fun w =>
    with_hub (hub_with_cameras
                (cameras (hub w) ++ [Camera_init (hub w) json]) (hub w)) w).

(** [CameraAlertSwitch(hub, cam)] for the camera at position [i]. *)
Definition new_CameraAlertSwitch (i : nat) : M World unit :=
  modify_cam i (fun c =>
    with_alert_switch
      (alert_switch c ++ [cam_entity_id c +:+ "_" +:+ ATTR_ALERT_DISABLED K]) c).

(** [CameraMotionSensor(hub, cam)] for the camera at position [i]. *)
Definition new_CameraMotionSensor (i : nat) : M World unit :=
  modify_cam i (fun c =>
    with_motion_sensor
      (motion_sensor c ++ [cam_entity_id c +:+ "_" +:+ ATTR_MOTION K]) c).

(** [HubModeSwitch(hub)]. *)
Definition new_HubModeSwitch : M World unit :=
  modify (fun w =>
    with_hub (hub_with_modeswitch
                (modeswitch (hub w) ++
                 [SWITCH_DOMAIN +:+ "." +:+ id (hub w) +:+ "_" +:+ ATTR_MODE])
                (hub w)) w).

(** *** camera.py: properties of a camera record *)

Definition Camera_is_streaming (c : Camera) : bool :=
  negb (_disabled c) && negb (offline c).

Definition Camera_is_recording (c : Camera) : bool :=
  negb (_disabled c) && negb (offline c).

Definition Camera_is_on (c : Camera) : bool :=
  negb (_disabled c) && negb (offline c).

Definition Camera_available (c : Camera) : bool :=
  negb (_disabled c) && negb (offline c).

Definition Camera_motion_detection_enabled (c : Camera) : bool :=
  negb (is_alert_disabled c).

(** [Camera.async_update] of the camera at position [i]: every listing
    entry whose id is contained in [device_id] is copied into the
    record. *)
Definition Camera_async_update (i : nat) : M World unit :=
  cam_json ← gets vendor_cameras;
  for_each cam_json (fun json =>
    self ← gets (fun w => cameras (hub w) !! i);
    match self with
    | Some c =>
        if str_in (j_id json) (device_id c)
        then modify_cam i (with_json json)
        else mret tt
    | None => mret tt
    end).

(** *** binary_sensor.py: the motion sensor of a camera *)

(** [timedelta(seconds=20)], in microseconds. *)
Definition motion_window : Z := 20 * 1000000.

(** [CameraMotionSensor.is_on] of the sensor linked to camera record
    [cam]; the wall clock is read when the property is. *)
Definition CameraMotionSensor_is_on (cam : Camera) : M World bool :=
  match last_motion cam with
  | None => mret false
  | Some t =>
      now ← datetime_now;
      if Z.gtb t (now - motion_window) then mret true else mret false
  end.

Definition CameraMotionSensor_available (cam : Camera) : bool :=
  Camera_available cam.

(** *** switch.py: the alert switch of a camera *)

Definition CameraAlertSwitch_is_on (cam : Camera) : bool :=
  negb (is_alert_disabled cam).

Definition CameraAlertSwitch_available (cam : Camera) : bool :=
  Camera_available cam.

Definition CameraAlertSwitch_async_turn_on (cam : Camera) : M World unit :=
  api_call (enable_alert (device_id cam) (ATTR_MODE_REASON K)).

Definition CameraAlertSwitch_async_turn_off (cam : Camera) : M World unit :=
  api_call (disable_alert (device_id cam) (ATTR_MODE_REASON K)).

(** *** camecthub.py *)

(** [update_hub_info]: [self.info = self.api.get_info()]. *)
Definition update_hub_info : M World unit :=
  modify (fun w => with_hub (hub_with_info (vendor_info w) (hub w)) w).

Definition mode_tuple : list value :=
  [VStr (ATTR_MODE_DEFAULT K); VStr (ATTR_MODE_HOME K)].

Definition assign_mode (m : value) : M World unit :=
  modify (fun w => with_hub (hub_with_mode m (hub w)) w).

Definition update_mode_property : M World unit :=
  i ← gets (fun w => info (hub w));
  reported ← dict_get i "mode";
  if py_in_tuple reported mode_tuple then
    again ← dict_get i "mode";
    assign_mode again
  else
    assign_mode (VStr (ATTR_MODE_DEFAULT K)).

Definition is_not_None (v : value) : bool :=
  match v with VNone => false | _ => true end.

Definition fire_camera_event (evt_type : string) (evt : gmap string value)
    : M World unit :=
  cid ← dict_get evt "cam_id";
  dev ← (if is_not_None cid then
           cid' ← dict_get evt "cam_id";
           hid ← gets (fun w => id (hub w));
           mret (CameraEntity hid cid')
         else
           ent ← gets (fun w => entity_id (hub w));
           mret (HubEntity ent));
  let data := mkBusData dev evt_type evt in
  logger (LogInfoFiring data);;
  bus_async_fire (ATTR_CAMECT_EVENT K) data.

(** The body of the alert loop for one camera. *)
Definition on_alert (evt : gmap string value) (i : nat) (cam : Camera)
    : M World unit :=
  cid ← dict_get evt "cam_id";
  hit ← lift_result (py_in cid (VStr (device_id cam)));
  if hit : bool then
    t ← datetime_now;
    modify_cam i (with_last_motion (Some t));;
    obj ← dict_get evt "detected_obj";
    modify_cam i (with_last_detected_obj (py_or obj (VStr (ATTR_UNKNOWN_OBJ K))));;
    schedule_update_ha_state (cam_entity_id cam);;
    for_each (motion_sensor cam) schedule_update_ha_state
  else mret tt.

(** The body of the offline and online loops for one camera. *)
Definition on_offline (off : bool) (evt : gmap string value) (i : nat)
    (cam : Camera) : M World unit :=
  cid ← dict_get evt "cam_id";
  hit ← lift_result (py_in cid (VStr (device_id cam)));
  if hit : bool then
    modify_cam i (with_offline off);;
    schedule_update_ha_state (cam_entity_id cam)
  else mret tt.

(** The statements inside the [try] of [handle_camect_event]. The event
    is never written, so [evt["type"]] is read once for the whole
    [if]/[elif] chain. *)
Definition handle_camect_event_body (evt : gmap string value) : M World unit :=
  ty ← dict_get evt "type";
  is_mode ← lift_result (py_in (VStr ATTR_MODE) ty);
  if is_mode : bool then
    desc ← dict_get evt "desc";
    if py_in_tuple desc mode_tuple then
      current ← gets (fun w => mode (hub w));
      desc1 ← dict_get evt "desc";
      same ← lift_result (py_in current desc1);
      if same : bool then mret tt
      else
        desc2 ← dict_get evt "desc";
        assign_mode desc2;;
        switches ← gets (fun w => modeswitch (hub w));
        for_each switches schedule_update_ha_state
    else
      desc1 ← dict_get evt "desc";
      logger (LogWarnUnknownMode desc1)
  else
  is_alert ← lift_result (py_in (VStr (ATTR_ALERT K)) ty);
  if is_alert : bool then
    for_cameras (on_alert evt);;
    fire_camera_event (ATTR_ALERT K) evt
  else
  is_offline ← lift_result (py_in (VStr (ATTR_CAM_OFFLINE K)) ty);
  if is_offline : bool then
    cam_name ← dict_get evt "cam_name";
    cid ← dict_get evt "cam_id";
    logger (LogInfoOffline cam_name cid);;
    for_cameras (on_offline true evt);;
    fire_camera_event (ATTR_CAM_OFFLINE K) evt
  else
  is_online ← lift_result (py_in (VStr (ATTR_CAM_ONLINE K)) ty);
  if is_online : bool then
    cam_name ← dict_get evt "cam_name";
    cid ← dict_get evt "cam_id";
    logger (LogInfoOnline cam_name cid);;
    for_cameras (on_offline false evt);;
    fire_camera_event (ATTR_CAM_ONLINE K) evt
  else
    logger (LogWarnUnhandled evt).

(** [handle_camect_event]: the body under [try], and the [except
    Exception] clause that logs what was raised. *)
Definition handle_camect_event (evt : gmap string value) : M World unit :=
  try_except (handle_camect_event_body evt)
             (fun ex => logger (LogException evt ex)).

(** *** switch.py: the hub mode switch *)

Definition HubModeSwitch_is_on (h : CamectHub) : result bool :=
  py_in (mode h) (VStr (ATTR_MODE_DEFAULT K)).

Definition HubModeSwitch_async_update : M World unit :=
  update_hub_info;;
  update_mode_property.

Definition HubModeSwitch_async_turn_on : M World unit :=
  api_call (set_mode (ATTR_MODE_DEFAULT K) (ATTR_MODE_REASON K));;
  update_mode_property.

Definition HubModeSwitch_async_turn_off : M World unit :=
  api_call (set_mode (ATTR_MODE_HOME K) (ATTR_MODE_REASON K));;
  update_mode_property.

End Integration.

(** * Outcomes, predicates and scenarios

    The definitions the theorems are stated with. *)

(** ** What well-formed events leave behind *)

(** The world after a loop over the cameras that ran to its end. *)
Definition after_loop (cs : list Camera) (sch : list string) (w : World)
    : World :=
  with_scheduled sch (with_hub (hub_with_cameras cs (hub w)) w).

(** The test of the three camera loops, on a string [cam_id]. *)
Definition matches (cid : string) (c : Camera) : bool :=
  str_in cid (device_id c).

(** The domain event fired for a camera event with a string [cam_id]. *)
Definition domain_event (tag : string) (evt : gmap string value)
    (cid : string) (w : World) : BusData :=
  mkBusData (CameraEntity (id (hub w)) (VStr cid)) tag evt.

Definition fired (K : Consts) (tag : string) (evt : gmap string value)
    (cid : string) (w : World) : World :=
  with_bus (bus w ++ [(ATTR_CAMECT_EVENT K, domain_event tag evt cid w)])
    (with_log (log w ++ [LogInfoFiring (domain_event tag evt cid w)]) w).

(** The three kinds of camera event. *)
Inductive CameraEventKind : Type :=
  | AlertEvent (obj : value)
  | OfflineEvent
  | OnlineEvent.

(** A well-formed camera event of the given kind: the type is a string
    that selects the kind's branch of the dispatcher, the camera id is a
    string, and the fields the branch reads are present. *)
Definition is_camera_event (K : Consts) (evt : gmap string value)
    (kind : CameraEventKind) (cid : string) : Prop :=
  exists ty,
    evt !! "type" = Some (VStr ty) /\
    evt !! "cam_id" = Some (VStr cid) /\
    str_in ATTR_MODE ty = false /\
    match kind with
    | AlertEvent obj =>
        str_in (ATTR_ALERT K) ty = true /\
        evt !! "detected_obj" = Some obj
    | OfflineEvent =>
        str_in (ATTR_ALERT K) ty = false /\
        str_in (ATTR_CAM_OFFLINE K) ty = true /\
        is_Some (evt !! "cam_name")
    | OnlineEvent =>
        str_in (ATTR_ALERT K) ty = false /\
        str_in (ATTR_CAM_OFFLINE K) ty = false /\
        str_in (ATTR_CAM_ONLINE K) ty = true /\
        is_Some (evt !! "cam_name")
    end.

(** The record a camera event of the given kind leaves behind when it is
    applied to the record, and the entities it queues. *)
Definition updated (K : Consts) (kind : CameraEventKind) (t : Z) (c : Camera)
    : Camera :=
  match kind with
  | AlertEvent obj =>
      with_last_detected_obj (py_or obj (VStr (ATTR_UNKNOWN_OBJ K)))
        (with_last_motion (Some t) c)
  | OfflineEvent => with_offline true c
  | OnlineEvent => with_offline false c
  end.

Definition queued (kind : CameraEventKind) (c : Camera) : list string :=
  match kind with
  | AlertEvent _ => cam_entity_id c :: motion_sensor c
  | OfflineEvent | OnlineEvent => [cam_entity_id c]
  end.

(** What the loop of a camera event does with one record: the records
    that match are updated and queued, the others are passed over. *)
Definition react (K : Consts) (kind : CameraEventKind) (t : Z) (cid : string)
    (c : Camera) : Camera :=
  if matches cid c then updated K kind t c else c.

Definition notify (kind : CameraEventKind) (cid : string) (c : Camera)
    : list string :=
  if matches cid c then queued kind c else [].

(** The kind of event handled by the loop that sets [offline] to
    [off]. *)
Definition offline_kind (off : bool) : CameraEventKind :=
  if off then OfflineEvent else OnlineEvent.

(** ** Refresh of a camera record *)

(** What the loop of [Camera.async_update] makes of a record, given the
    vendor's listing. *)
Definition refresh (js : list CamJson) (c : Camera) : Camera :=
  fold_left
    (fun c j => if str_in (j_id j) (device_id c) then with_json j c else c)
    js c.

Definition with_vendor_cameras (js : list CamJson) (w : World) : World :=
  mkWorld (hub w) (clock w) (scheduled w) (bus w) (log w) (api_calls w)
    (vendor_info w) js.

Definition with_camera (i : nat) (c : Camera) (w : World) : World :=
  with_hub (hub_with_cameras (<[i := c]> (cameras (hub w))) (hub w)) w.

(** ** Availability, mode and invariants *)

(** The vendor-reported enabled flag. *)
Definition enabled (c : Camera) : bool := negb (_disabled c).

Definition availability_law (c : Camera) : Prop :=
  Camera_available c = (enabled c && negb (offline c)) /\
  Camera_is_streaming c = Camera_available c /\
  Camera_is_recording c = Camera_available c /\
  Camera_is_on c = Camera_available c /\
  CameraAlertSwitch_available c = Camera_available c.

Definition mode_ok (K : Consts) (h : CamectHub) : Prop :=
  mode h = VStr (ATTR_MODE_DEFAULT K) \/ mode h = VStr (ATTR_MODE_HOME K).

(** [preserves I m]: running [m] from a store that satisfies [I] leaves
    a store that satisfies [I], whether [m] returns or raises. *)
Definition preserves {A} (I : World -> Prop) (m : M World A) : Prop :=
  forall w, I w -> I (snd (m w)).

(** The invariant of the session mode, on the store. *)
Definition mode_inv (K : Consts) (w : World) : Prop := mode_ok K (hub w).

(** ** Concrete scenarios *)

(** Modelled from the spec: the integration's constants module is not
    part of the sources, so the scenarios below take the two modes
    ("default", "home"), the recognized event tags ("alert", "offline",
    "online") and the sentinel label ("unknown") as the specification
    names them. The general theorems hold for every [Consts]. *)
Definition spec_consts : Consts :=
  mkConsts "camect" "default" "home" "Home Assistant" "alert" "offline"
    "online" "unknown" "camect_event" "alert_disabled" "motion".

Definition cam1_json : CamJson :=
  mkCamJson "cam1" "Front door" (Some "Acme") None "rtsp://cam1" 1920 1080
    false false.

(** An initialised hub "hub123", in default mode, nothing discovered
    yet; the wall clock reads 1000 s. *)
Definition fresh_world : World :=
  mkWorld (mkHub "camect_hub123" "camect.camect_hub123" "hub123" ∅ "Home"
             (VStr "default") [] [])
          1000000000 [] [] [] [] ∅ [cam1_json].

(** Setup: one camera, its alert switch and motion sensor, and the hub's
    mode switch. *)
Definition setup : M World unit :=
  new_Camera spec_consts cam1_json;;
  new_HubModeSwitch;;
  new_CameraAlertSwitch spec_consts 0;;
  new_CameraMotionSensor spec_consts 0.

Definition home_world : World := Eval vm_compute in snd (setup fresh_world).

Definition cam1 : Camera := Eval vm_compute in
  default (Camera_init spec_consts (hub fresh_world) cam1_json)
          (cameras (hub home_world) !! 0%nat).

Definition reported (m : value) (w : World) : World :=
  with_hub (hub_with_info {[ "mode" := m ]} (hub w)) w.

Definition mode_event : gmap string value :=
  {[ "type" := VStr "mode"; "desc" := VStr "home" ]}.

Definition unknown_event : gmap string value :=
  {[ "type" := VStr "heartbeat"; "cam_id" := VStr "cam1" ]}.

Definition cam456_json : CamJson :=
  mkCamJson "cam456" "Garage" None None "rtsp://cam456" 1280 720 false false.

(** A hub whose one camera has the identifier "cam456". *)
Definition garage_world : World :=
  Eval vm_compute in
    snd ((new_Camera spec_consts cam456_json;;
          new_CameraMotionSensor spec_consts 0) fresh_world).

Definition composite_alert : gmap string value :=
  {[ "type" := VStr "alert"; "cam_id" := VStr "hub123-cam456";
     "cam_name" := VStr "Garage"; "detected_obj" := VStr "person" ]}.

Definition composite_json : CamJson :=
  mkCamJson "hub123-cam456" "Garage" None None "rtsp://cam456" 1280 720
    false false.

(** A hub whose one camera has the composite identifier
    "hub123-cam456". *)
Definition composite_world : World :=
  Eval vm_compute in snd (new_Camera spec_consts composite_json fresh_world).

Definition plain_offline : gmap string value :=
  {[ "type" := VStr "offline"; "cam_id" := VStr "cam456";
     "cam_name" := VStr "Garage" ]}.

Definition bare_alert : gmap string value :=
  {[ "type" := VStr "alert"; "cam_id" := VStr "cam1" ]}.

Definition mode_alert : gmap string value :=
  {[ "type" := VStr "alert_mode"; "desc" := VStr "home";
     "cam_id" := VStr "cam1"; "detected_obj" := VStr "person" ]}.

Definition empty_label_alert : gmap string value :=
  {[ "type" := VStr "alert"; "cam_id" := VStr "cam1";
     "detected_obj" := VNone ]}.

Definition cam1_alerts_off : CamJson :=
  mkCamJson "cam1" "Front door" (Some "Acme") None "rtsp://cam1" 1920 1080
    true false.

(** * The rest of the integration

    The platform setups, the remaining properties of the views, and the
    definitions the further properties are stated with. *)

Section Platforms.

Variable K : Consts.

(** camera.py, [async_setup_entry]: one [Camera] per entry of the
    vendor's listing, in order. Handing the new entities to the host
    ([async_add_entities]) happens outside the store. *)
Definition camera_async_setup_entry : M World unit :=
  hub_cameras ← gets vendor_cameras;
  for_each hub_cameras (new_Camera K).

(** switch.py, [async_setup_entry]: the hub's mode switch, then one alert
    switch per camera of the hub. *)
Definition switch_async_setup_entry : M World unit :=
  new_HubModeSwitch;;
  for_cameras (fun i _ => new_CameraAlertSwitch K i).

(** binary_sensor.py, [async_setup_entry]: one motion sensor per camera
    of the hub. *)
Definition binary_sensor_async_setup_entry : M World unit :=
  for_cameras (fun i _ => new_CameraMotionSensor K i).

(** The three platform setups in the order in which
    [async_setup_entry] of the integration forwards them, once the hub
    is initialised. *)
Definition forward_entry_setups : M World unit :=
  camera_async_setup_entry;;
  switch_async_setup_entry;;
  binary_sensor_async_setup_entry.

(** camera.py: [Camera.unique_id]. *)
Definition Camera_unique_id (c : Camera) : string := _id c.

(** switch.py: [CameraAlertSwitch.icon]. *)
Definition CameraAlertSwitch_icon (cam : Camera) : string :=
  if is_alert_disabled cam then "mdi:bell-cancel" else "mdi:bell".

(** switch.py: [HubModeSwitch.icon]. *)
Definition HubModeSwitch_icon (h : CamectHub) : result string :=
  match py_in (mode h) (VStr (ATTR_MODE_DEFAULT K)) with
  | Ret b => Ret (if b then "mdi:shield-check" else "mdi:home")
  | Raise e => Raise e
  end.

(** binary_sensor.py: [CameraMotionSensor.icon], which reads [is_on]. *)
Definition CameraMotionSensor_icon (cam : Camera) : M World string :=
  on ← CameraMotionSensor_is_on cam;
  if on : bool then mret "mdi:motion-sensor" else mret "mdi:motion-sensor-off".

(** binary_sensor.py: [CameraMotionSensor.extra_state_attributes]. *)
Definition CameraMotionSensor_extra_state_attributes (cam : Camera)
    : gmap string value :=
  {[ "detected_obj" := last_detected_obj cam ]}.

End Platforms.

(** ** Statements *)

(** A camera record with the three fields written by events blanked:
    what is left is what the vendor listing and the setup put there. *)
Definition static (c : Camera) : Camera :=
  with_offline false (with_last_detected_obj VNone (with_last_motion None c)).

(** [untouched w0 w]: store [w] differs from [w0] at most in what the
    event handler may write: the session mode, the three event fields of
    the cameras, the update queue, the bus and the log. *)
Definition untouched (w0 w : World) : Prop :=
  clock w = clock w0 /\
  api_calls w = api_calls w0 /\
  vendor_info w = vendor_info w0 /\
  vendor_cameras w = vendor_cameras w0 /\
  hub_with_cameras [] (hub_with_mode VNone (hub w))
  = hub_with_cameras [] (hub_with_mode VNone (hub w0)) /\
  map static (cameras (hub w)) = map static (cameras (hub w0)).

(** [bus_at_most_one m]: running [m] keeps every event already on the
    bus and adds none or one. *)
Definition bus_at_most_one {A} (m : M World A) : Prop :=
  forall w, bus (snd (m w)) = bus w \/
            exists x, bus (snd (m w)) = bus w ++ [x].

(** The last entry of a listing that matches a record, if any. *)
Definition last_match (js : list CamJson) (c : Camera) : option CamJson :=
  last (List.filter (fun j => str_in (j_id j) (device_id c)) js).

(** What setup adds to a camera record: its alert switch and its motion
    sensor. *)
Definition linked (K : Consts) (c : Camera) : Camera :=
  with_motion_sensor
    (motion_sensor c ++ [cam_entity_id c +:+ "_" +:+ ATTR_MOTION K])
    (with_alert_switch
       (alert_switch c ++ [cam_entity_id c +:+ "_" +:+ ATTR_ALERT_DISABLED K])
       c).

(** The mode [update_mode_property] settles on for a reported value. *)
Definition normalized (K : Consts) (v : value) : value :=
  if py_in_tuple v (mode_tuple K) then v else VStr (ATTR_MODE_DEFAULT K).

Definition with_clock (t : Z) (w : World) : World :=
  mkWorld (hub w) t (scheduled w) (bus w) (log w) (api_calls w)
    (vendor_info w) (vendor_cameras w).

(** ** Further scenarios *)

Definition cam2_json : CamJson :=
  mkCamJson "cam2" "Back yard" None (Some "X2") "rtsp://cam2" 640 480
    true true.

(** The listing reports two cameras. *)
Definition two_camera_world : World :=
  with_vendor_cameras [cam1_json; cam2_json] fresh_world.

Definition cam1_offline : gmap string value :=
  {[ "type" := VStr "offline"; "cam_id" := VStr "cam1";
     "cam_name" := VStr "Front door" ]}.

Definition cam1_online : gmap string value :=
  {[ "type" := VStr "online"; "cam_id" := VStr "cam1";
     "cam_name" := VStr "Front door" ]}.

Definition person_alert : gmap string value :=
  {[ "type" := VStr "alert"; "cam_id" := VStr "cam1";
     "detected_obj" := VStr "person" ]}.

(** The hub in default mode, with the cached report saying "default"
    and the vendor now reporting "home". *)
Definition polled_home_world : World :=
  mkWorld (hub (reported (VStr "default") home_world)) (clock home_world)
    [] [] [] [] {[ "mode" := VStr "home" ]} [cam1_json].

Definition null_id_alert : gmap string value :=
  {[ "type" := VStr "alert"; "cam_id" := VNone;
     "detected_obj" := VStr "person" ]}.

(** * Properties *)

(** ** Substring test *)

Lemma append_nil_l (s : string) : "" +:+ s = s.
Proof. reflexivity. Qed.

Lemma append_cons (a : ascii) (s t : string) :
  String a s +:+ t = String a (s +:+ t).
Proof. reflexivity. Qed.

Lemma prefix_app (n h : string) :
  String.prefix n h = true <-> exists q, h = n +:+ q.
Proof.
  revert h. induction n as [|a n IH]; intros h.
  - split; [intros _; exists h; reflexivity | intros _; now destruct h].
  - destruct h as [|b h]; simpl.
    { split; [discriminate | intros [q Hq]; discriminate]. }
    destruct (ascii_dec a b) as [->|Hab].
    + rewrite IH. split; intros [q Hq]; exists q.
      * rewrite append_cons. now f_equal.
      * rewrite append_cons in Hq. now injection Hq.
    + split; [discriminate|]. intros [q Hq]. rewrite append_cons in Hq.
      injection Hq as Hb _. congruence.
Qed.

Lemma str_in_nil (n : string) : str_in n "" = String.prefix n "".
Proof. unfold str_in. now destruct (String.prefix n ""). Qed.

Lemma str_in_cons (n : string) (b : ascii) (h : string) :
  str_in n (String b h)
  = if String.prefix n (String b h) then true else str_in n h.
Proof. reflexivity. Qed.

(** [str_in] is the substring relation. *)
Lemma str_in_spec (n h : string) :
  str_in n h = true <-> exists p q, h = p +:+ n +:+ q.
Proof.
  induction h as [|b h IH].
  - rewrite str_in_nil, prefix_app. split.
    + intros [q Hq]. exists "", q. exact Hq.
    + intros (p & q & Hpq). destruct p; [eauto | discriminate].
  - rewrite str_in_cons.
    destruct (String.prefix n (String b h)) eqn:Hp.
    + split; [intros _ | reflexivity].
      apply prefix_app in Hp as [q Hq]. exists "", q. exact Hq.
    + rewrite IH. split.
      * intros (p & q & ->). exists (String b p), q. reflexivity.
      * intros (p & q & Hpq). destruct p as [|c p].
        -- assert (String.prefix n (String b h) = true)
             by (apply prefix_app; eauto).
           congruence.
        -- rewrite append_cons in Hpq. injection Hpq as _ Hh. eauto.
Qed.

Lemma string_app_assoc (a b c : string) : (a +:+ b) +:+ c = a +:+ (b +:+ c).
Proof.
  induction a as [|x a IH]; [reflexivity|].
  rewrite !append_cons. now f_equal.
Qed.

Lemma string_app_nil_r (a : string) : a +:+ "" = a.
Proof.
  induction a as [|x a IH]; [reflexivity|]. rewrite append_cons. now f_equal.
Qed.

Lemma str_in_refl (s : string) : str_in s s = true.
Proof. apply str_in_spec. exists "", "". now rewrite append_nil_l, string_app_nil_r. Qed.

Lemma str_in_trans (a b c : string) :
  str_in a b = true -> str_in b c = true -> str_in a c = true.
Proof.
  rewrite !str_in_spec. intros (p & q & ->) (p' & q' & ->).
  exists (p' +:+ p), (q +:+ q'). now rewrite !string_app_assoc.
Qed.

(** A string that does not contain [a] contains no string that
    contains [a]. *)
Lemma str_in_absent (a b c : string) :
  str_in a b = true -> str_in a c = false -> str_in b c = false.
Proof.
  intros Hab Hac. destruct (str_in b c) eqn:Hbc; [|reflexivity].
  rewrite (str_in_trans a b c Hab Hbc) in Hac. discriminate.
Qed.

(** ** Equality and membership *)

Lemma py_eq_str (v : value) (s : string) :
  py_eq v (VStr s) = true <-> v = VStr s.
Proof.
  destruct v; simpl; try (split; [discriminate | intros; discriminate]).
  rewrite String.eqb_eq. split; [intros ->; reflexivity | congruence].
Qed.

Lemma py_in_tuple_modes (K : Consts) (v : value) :
  py_in_tuple v (mode_tuple K) = true <->
  v = VStr (ATTR_MODE_DEFAULT K) \/ v = VStr (ATTR_MODE_HOME K).
Proof.
  unfold py_in_tuple, mode_tuple. simpl.
  rewrite orb_false_r, orb_true_iff, !py_eq_str. reflexivity.
Qed.

(** ** Running the monad *)

Lemma dict_get_Some {S} (d : gmap string value) (k : string) (v : value) :
  d !! k = Some v -> dict_get (S := S) d k = ret v.
Proof. unfold dict_get. now intros ->. Qed.

Lemma dict_get_None {S} (d : gmap string value) (k : string) :
  d !! k = None -> dict_get (S := S) d k = raise (KeyError k).
Proof. unfold dict_get. now intros ->. Qed.

Ltac run :=
  unfold logger, bus_async_fire, api_call, schedule_update_ha_state,
    datetime_now, modify_cam, assign_mode in *;
  unfold mbind, M_bind, mret, M_ret, bind, ret, raise, gets, modify,
    lift_result, try_except in *;
  cbv beta iota.

Lemma lookup_map {A B} (f : A -> B) (l : list A) (i : nat) :
  map f l !! i = f <$> (l !! i).
Proof.
  revert i. induction l as [|x l IH]; intros [|i]; simpl; auto.
Qed.

Lemma alter_lookup_insert {A} (f : A -> A) (l : list A) (i : nat) (x : A) :
  l !! i = Some x -> alter f i l = <[i := f x]> l.
Proof.
  revert i. induction l as [|y l IH]; intros [|i] H; simpl in *;
    try discriminate.
  - now injection H as ->.
  - f_equal. now apply IH.
Qed.

(** Queueing a list of observers appends them, in order. *)
Lemma for_each_schedule (l : list string) (w : World) :
  for_each l schedule_update_ha_state w
  = (Ret tt, with_scheduled (scheduled w ++ l) w).
Proof.
  revert w. induction l as [|x l IH]; intros w; simpl.
  - unfold ret, with_scheduled. rewrite app_nil_r. now destruct w.
  - unfold bind at 1. unfold schedule_update_ha_state at 1. unfold modify.
    rewrite IH. unfold with_scheduled; simpl. now rewrite <- app_assoc.
Qed.

(** A loop whose body rewrites the visited record to [upd c] and queues
    the entities [eff c] maps [upd] over the cameras and queues the
    entities of each camera in turn. *)
Lemma for_cameras_from_map (t : Z) (upd : Camera -> Camera)
    (eff : Camera -> list string) (body : nat -> Camera -> M World unit) :
  (forall i c w, clock w = t -> cameras (hub w) !! i = Some c ->
     body i c w =
     (Ret tt, after_loop (<[i := upd c]> (cameras (hub w)))
                         (scheduled w ++ eff c) w)) ->
  forall todo done w, clock w = t -> cameras (hub w) = done ++ todo ->
    for_cameras_from (length done) todo body w =
    (Ret tt, after_loop (done ++ map upd todo)
                        (scheduled w ++ flat_map eff todo) w).
Proof.
  intros Hbody todo. induction todo as [|c todo IH]; intros done w Ht Hw.
  - simpl. unfold ret, after_loop, with_scheduled, with_hub, hub_with_cameras.
    rewrite !app_nil_r in *. rewrite <- Hw. destruct w as [[] ? ? ? ? ? ? ?].
    reflexivity.
  - simpl. unfold mbind, M_bind, bind.
    rewrite (Hbody (length done) c w Ht)
      by (rewrite Hw; apply list_lookup_middle; reflexivity).
    rewrite Hw.
    replace (<[length done:=upd c]> (done ++ c :: todo))
      with ((done ++ [upd c]) ++ todo).
    2:{ rewrite <- (Nat.add_0_r (length done)) at 1.
        rewrite insert_app_r. simpl. now rewrite <- app_assoc. }
    replace (S (length done)) with (length (done ++ [upd c]))
      by (rewrite length_app; simpl; lia).
    rewrite IH; [| exact Ht | reflexivity].
    unfold after_loop, with_scheduled, with_hub, hub_with_cameras; simpl.
    now rewrite <- !app_assoc.
Qed.

Lemma for_cameras_map (upd : Camera -> Camera) (eff : Camera -> list string)
    (body : nat -> Camera -> M World unit) (w : World) :
  (forall i c w', clock w' = clock w -> cameras (hub w') !! i = Some c ->
     body i c w' =
     (Ret tt, after_loop (<[i := upd c]> (cameras (hub w')))
                         (scheduled w' ++ eff c) w')) ->
  for_cameras body w =
  (Ret tt, after_loop (map upd (cameras (hub w)))
                      (scheduled w ++ flat_map eff (cameras (hub w))) w).
Proof.
  intros Hbody. unfold for_cameras, mbind, M_bind, bind, gets.
  apply (for_cameras_from_map (clock w) upd eff body Hbody
           (cameras (hub w)) [] w); reflexivity.
Qed.

(** ** What a camera event does to the store *)

Section Events.

Variable K : Consts.

Lemma after_loop_id (i : nat) (c : Camera) (w : World) :
  cameras (hub w) !! i = Some c ->
  after_loop (<[i := c]> (cameras (hub w))) (scheduled w ++ []) w = w.
Proof.
  intros H. rewrite list_insert_id by exact H. rewrite app_nil_r.
  now destruct w as [[] ? ? ? ? ? ? ?].
Qed.

Lemma on_alert_run (evt : gmap string value) (cid : string) (obj : value)
    (i : nat) (c : Camera) (w : World) :
  evt !! "cam_id" = Some (VStr cid) ->
  evt !! "detected_obj" = Some obj ->
  cameras (hub w) !! i = Some c ->
  on_alert K evt i c w =
  (Ret tt,
   after_loop (<[i := react K (AlertEvent obj) (clock w) cid c]> (cameras (hub w)))
              (scheduled w ++ notify (AlertEvent obj) cid c) w).
Proof.
  intros Hcid Hobj Hc. unfold on_alert, react, notify, matches.
  rewrite (dict_get_Some _ _ _ Hcid), (dict_get_Some _ _ _ Hobj). run.
  simpl. destruct (str_in cid (device_id c)).
  - rewrite for_each_schedule. simpl.
    rewrite (alter_lookup_insert _ _ _ _ Hc).
    rewrite (alter_lookup_insert _ (<[i:=_]> _) i (with_last_motion (Some (clock w)) c))
      by (apply list_lookup_insert_eq; eapply lookup_lt_Some; exact Hc).
    rewrite list_insert_insert_eq.
    unfold after_loop, with_scheduled, with_hub, hub_with_cameras; simpl.
    now rewrite <- app_assoc.
  - now rewrite (after_loop_id i c w Hc).
Qed.

Lemma on_offline_run (off : bool) (evt : gmap string value) (cid : string)
    (i : nat) (c : Camera) (w : World) :
  evt !! "cam_id" = Some (VStr cid) ->
  cameras (hub w) !! i = Some c ->
  on_offline off evt i c w =
  (Ret tt,
   after_loop (<[i := react K (offline_kind off) (clock w) cid c]>
                 (cameras (hub w)))
              (scheduled w ++ notify (offline_kind off) cid c) w).
Proof.
  intros Hcid Hc. unfold on_offline, react, notify, matches.
  rewrite (dict_get_Some _ _ _ Hcid). run.
  simpl. destruct (str_in cid (device_id c)).
  - rewrite (alter_lookup_insert _ _ _ _ Hc). now destruct off.
  - now rewrite (after_loop_id i c w Hc).
Qed.

Lemma fire_camera_event_run (tag : string) (evt : gmap string value)
    (cid : string) (w : World) :
  evt !! "cam_id" = Some (VStr cid) ->
  fire_camera_event K tag evt w = (Ret tt, fired K tag evt cid w).
Proof.
  intros Hcid. unfold fire_camera_event.
  rewrite (dict_get_Some _ _ _ Hcid). run. reflexivity.
Qed.

(** A well-formed alert event: the cameras are rewritten by
    [react_alert], the matching cameras and their motion sensors are
    queued, and the domain event is fired. *)
Lemma handle_alert_run (evt : gmap string value) (ty cid : string)
    (obj : value) (w : World) :
  evt !! "type" = Some (VStr ty) ->
  str_in ATTR_MODE ty = false ->
  str_in (ATTR_ALERT K) ty = true ->
  evt !! "cam_id" = Some (VStr cid) ->
  evt !! "detected_obj" = Some obj ->
  handle_camect_event K evt w =
  (Ret tt,
   fired K (ATTR_ALERT K) evt cid
     (after_loop (map (react K (AlertEvent obj) (clock w) cid) (cameras (hub w)))
                 (scheduled w ++
                  flat_map (notify (AlertEvent obj) cid) (cameras (hub w)))
                 w)).
Proof.
  intros Hty Hmode Halert Hcid Hobj.
  unfold handle_camect_event, handle_camect_event_body.
  rewrite (dict_get_Some _ _ _ Hty).
  unfold try_except, mbind, M_bind, bind, ret, lift_result, py_in.
  rewrite Hmode, Halert.
  rewrite (for_cameras_map (react K (AlertEvent obj) (clock w) cid)
             (notify (AlertEvent obj) cid)).
  - now rewrite (fire_camera_event_run _ _ cid).
  - intros i c w' Hclk Hc. rewrite <- Hclk. now apply on_alert_run.
Qed.

(** A well-formed offline or online event. *)
Lemma handle_offline_run (evt : gmap string value) (ty cid : string)
    (cam_name : value) (w : World) :
  evt !! "type" = Some (VStr ty) ->
  str_in ATTR_MODE ty = false ->
  str_in (ATTR_ALERT K) ty = false ->
  str_in (ATTR_CAM_OFFLINE K) ty = true ->
  evt !! "cam_name" = Some cam_name ->
  evt !! "cam_id" = Some (VStr cid) ->
  handle_camect_event K evt w =
  (Ret tt,
   fired K (ATTR_CAM_OFFLINE K) evt cid
     (after_loop (map (react K OfflineEvent (clock w) cid) (cameras (hub w)))
                 (scheduled w ++
                  flat_map (notify OfflineEvent cid) (cameras (hub w)))
                 (with_log (log w ++ [LogInfoOffline cam_name (VStr cid)]) w))).
Proof.
  intros Hty Hmode Halert Hoff Hname Hcid.
  unfold handle_camect_event, handle_camect_event_body.
  rewrite (dict_get_Some _ _ _ Hty), (dict_get_Some _ _ _ Hname),
    (dict_get_Some _ _ _ Hcid).
  unfold try_except, mbind, M_bind, bind, ret, lift_result, py_in, logger, modify.
  rewrite Hmode, Halert, Hoff.
  rewrite (for_cameras_map (react K OfflineEvent (clock w) cid)
             (notify OfflineEvent cid)).
  - now rewrite (fire_camera_event_run _ _ cid).
  - intros i c w' Hclk Hc.
    rewrite (on_offline_run true evt cid i c w' Hcid Hc). now rewrite Hclk.
Qed.

Lemma handle_online_run (evt : gmap string value) (ty cid : string)
    (cam_name : value) (w : World) :
  evt !! "type" = Some (VStr ty) ->
  str_in ATTR_MODE ty = false ->
  str_in (ATTR_ALERT K) ty = false ->
  str_in (ATTR_CAM_OFFLINE K) ty = false ->
  str_in (ATTR_CAM_ONLINE K) ty = true ->
  evt !! "cam_name" = Some cam_name ->
  evt !! "cam_id" = Some (VStr cid) ->
  handle_camect_event K evt w =
  (Ret tt,
   fired K (ATTR_CAM_ONLINE K) evt cid
     (after_loop (map (react K OnlineEvent (clock w) cid) (cameras (hub w)))
                 (scheduled w ++
                  flat_map (notify OnlineEvent cid) (cameras (hub w)))
                 (with_log (log w ++ [LogInfoOnline cam_name (VStr cid)]) w))).
Proof.
  intros Hty Hmode Halert Hoff Hon Hname Hcid.
  unfold handle_camect_event, handle_camect_event_body.
  rewrite (dict_get_Some _ _ _ Hty), (dict_get_Some _ _ _ Hname),
    (dict_get_Some _ _ _ Hcid).
  unfold try_except, mbind, M_bind, bind, ret, lift_result, py_in, logger, modify.
  rewrite Hmode, Halert, Hoff, Hon.
  rewrite (for_cameras_map (react K OnlineEvent (clock w) cid)
             (notify OnlineEvent cid)).
  - now rewrite (fire_camera_event_run _ _ cid).
  - intros i c w' Hclk Hc.
    rewrite (on_offline_run false evt cid i c w' Hcid Hc). now rewrite Hclk.
Qed.

End Events.

(** ** Concrete scenario *)

(** ** Error containment in the event handler *)

(** A missing ["type"] key raises inside the body... *)
Example body_raises_on_missing_type :
  fst (handle_camect_event_body spec_consts ∅ home_world)
  = Raise (KeyError "type").
Proof. reflexivity. Qed.

(** ... and so does a ["type"] that is not iterable. *)
Example body_raises_on_integer_type :
  fst (handle_camect_event_body spec_consts {[ "type" := VInt 7 ]} home_world)
  = Raise TypeError.
Proof. vm_compute. reflexivity. Qed.

(** The [except] clause turns every outcome of the body into a normal
    return. *)
Lemma try_except_logger_returns (evt : gmap string value)
    (body : M World unit) (w : World) :
  fst (try_except body (fun ex => logger (LogException evt ex)) w) = Ret tt.
Proof.
  unfold try_except. now destruct (body w) as [[[]|ex] wb].
Qed.

(** C1: for every event dictionary, [handle_camect_event] returns
    normally; whatever the body raised is appended to the log and is not
    passed on to the caller. *)
Theorem handle_camect_event_contains_errors (K : Consts)
    (evt : gmap string value) (w : World) :
  fst (handle_camect_event K evt w) = Ret tt /\
  forall ex wb,
    handle_camect_event_body K evt w = (Raise ex, wb) ->
    snd (handle_camect_event K evt w)
    = with_log (log wb ++ [LogException evt ex]) wb.
Proof.
  unfold handle_camect_event, try_except.
  destruct (handle_camect_event_body K evt w) as [[[]|ex] wb] eqn:Hbody.
  - split; [reflexivity | intros ex wb' H; discriminate].
  - split; [reflexivity|]. intros ex' wb' H. injection H as <- <-.
    reflexivity.
Qed.

Lemma handle_camect_event_contains_errors_witness :
  handle_camect_event spec_consts ∅ home_world
  = (Ret tt,
     with_log (log home_world ++ [LogException ∅ (KeyError "type")]) home_world).
Proof.
  destruct (handle_camect_event_contains_errors spec_consts ∅ home_world)
    as [Hret Hlog].
  specialize (Hlog (KeyError "type") home_world eq_refl).
  destruct (handle_camect_event spec_consts ∅ home_world) as [r w'].
  simpl in Hret, Hlog. now rewrite Hret, Hlog.
Defined.

(** ** Motion window *)

Example motion_active_at_19_999s :
  fst (CameraMotionSensor_is_on
         (with_last_motion (Some (clock home_world - 19999000)) cam1)
         home_world) = Ret true.
Proof. reflexivity. Qed.

Example motion_inactive_at_20_001s :
  fst (CameraMotionSensor_is_on
         (with_last_motion (Some (clock home_world - 20001000)) cam1)
         home_world) = Ret false.
Proof. reflexivity. Qed.

Example motion_inactive_at_20s :
  fst (CameraMotionSensor_is_on
         (with_last_motion (Some (clock home_world - 20000000)) cam1)
         home_world) = Ret false.
Proof. reflexivity. Qed.

(** C3: reading the motion sensor leaves the store as it is and returns
    true exactly when [last_motion] is set and less than 20 seconds
    before the time of the read, false when it is unset or 20 seconds or
    more before; the value depends on nothing but the time of the read
    and the record's [last_motion]. *)
Theorem motion_sensor_is_on_window (cam : Camera) (w : World) :
  snd (CameraMotionSensor_is_on cam w) = w /\
  (fst (CameraMotionSensor_is_on cam w) = Ret true <->
   exists t, last_motion cam = Some t /\ clock w - t < 20 * 1000000) /\
  (fst (CameraMotionSensor_is_on cam w) = Ret false <->
   last_motion cam = None \/
   exists t, last_motion cam = Some t /\ 20 * 1000000 <= clock w - t) /\
  (forall cam' w',
     last_motion cam' = last_motion cam -> clock w' = clock w ->
     fst (CameraMotionSensor_is_on cam' w')
     = fst (CameraMotionSensor_is_on cam w)).
Proof.
  unfold CameraMotionSensor_is_on, motion_window. run.
  split; [|split; [|split]].
  - destruct (last_motion cam) as [t|]; [|reflexivity].
    now destruct (Z.gtb t (clock w - 20 * 1000000)).
  - destruct (last_motion cam) as [t|]; cbn [fst].
    + destruct (Z.gtb_spec t (clock w - 20 * 1000000)); cbn [fst]; split.
      * intros _. exists t. split; [reflexivity | lia].
      * reflexivity.
      * discriminate.
      * intros (t' & [= <-] & Ht). lia.
    + split; [discriminate | intros (t & [=] & _)].
  - destruct (last_motion cam) as [t|]; cbn [fst].
    + destruct (Z.gtb_spec t (clock w - 20 * 1000000)); cbn [fst]; split.
      * discriminate.
      * intros [[=] | (t' & [= <-] & Ht)]. lia.
      * intros _. right. exists t. split; [reflexivity | lia].
      * reflexivity.
    + split; [now left | reflexivity].
  - intros cam' w' Hlm Hclk. rewrite Hlm.
    destruct (last_motion cam) as [t|]; [|reflexivity].
    cbv beta iota. rewrite Hclk.
    now destruct (Z.gtb t (clock w - 20 * 1000000)).
Qed.

(** ** Availability *)

Lemma availability_law_holds (c : Camera) : availability_law c.
Proof. repeat split. Qed.

(** C4: in every store, and in the store after a refresh of any camera
    and after any handled event, every camera record satisfies
    [available = enabled && not offline], and streaming, recording, on
    and the alert switch's availability all equal that predicate. *)
Theorem availability_after_every_mutation (K : Consts) (w : World) :
  Forall availability_law (cameras (hub w)) /\
  (forall i, Forall availability_law
               (cameras (hub (snd (Camera_async_update i w))))) /\
  (forall evt, Forall availability_law
                 (cameras (hub (snd (handle_camect_event K evt w))))).
Proof.
  repeat split; intros; apply Forall_forall; intros c _;
    apply availability_law_holds.
Qed.

(** ** Mode normalization *)

Lemma update_mode_property_run (K : Consts) (w : World) (v : value) :
  info (hub w) !! "mode" = Some v ->
  update_mode_property K w =
  (Ret tt,
   with_hub (hub_with_mode
               (if py_in_tuple v (mode_tuple K) then v
                else VStr (ATTR_MODE_DEFAULT K)) (hub w)) w).
Proof.
  intros Hv. unfold update_mode_property. run.
  rewrite (dict_get_Some _ _ _ Hv). unfold ret.
  destruct (py_in_tuple v (mode_tuple K)); reflexivity.
Qed.

Lemma update_mode_property_missing (K : Consts) (w : World) :
  info (hub w) !! "mode" = None ->
  update_mode_property K w = (Raise (KeyError "mode"), w).
Proof.
  intros Hv. unfold update_mode_property. run.
  now rewrite (dict_get_None _ _ Hv).
Qed.

(** C9: when the vendor-reported info has a mode field,
    [update_mode_property] returns and leaves the session mode equal to
    that field if it is one of the two recognized values, and equal to
    the default mode for every other value. *)
Theorem update_mode_property_normalizes (K : Consts) (w : World) (v : value) :
  info (hub w) !! "mode" = Some v ->
  fst (update_mode_property K w) = Ret tt /\
  (v = VStr (ATTR_MODE_DEFAULT K) \/ v = VStr (ATTR_MODE_HOME K) ->
   mode (hub (snd (update_mode_property K w))) = v) /\
  (v <> VStr (ATTR_MODE_DEFAULT K) -> v <> VStr (ATTR_MODE_HOME K) ->
   mode (hub (snd (update_mode_property K w))) = VStr (ATTR_MODE_DEFAULT K)).
Proof.
  intros Hv. rewrite (update_mode_property_run K w v Hv).
  cbn [fst snd hub mode with_hub hub_with_mode].
  split; [reflexivity|].
  destruct (py_in_tuple v (mode_tuple K)) eqn:Hin.
  - apply py_in_tuple_modes in Hin. split; [reflexivity|].
    intros Hd Hh. destruct Hin; contradiction.
  - split; [|reflexivity]. intros Hrec.
    apply py_in_tuple_modes in Hrec. congruence.
Qed.

Lemma update_mode_property_normalizes_witness :
  mode (hub (snd (update_mode_property spec_consts
                    (reported (VStr "home") home_world)))) = VStr "home" /\
  mode (hub (snd (update_mode_property spec_consts
                    (reported (VStr "night") home_world)))) = VStr "default".
Proof.
  split.
  - destruct (update_mode_property_normalizes spec_consts
                (reported (VStr "home") home_world) (VStr "home") eq_refl)
      as (_ & Hrec & _).
    apply Hrec. right. reflexivity.
  - destruct (update_mode_property_normalizes spec_consts
                (reported (VStr "night") home_world) (VStr "night") eq_refl)
      as (_ & _ & Hother).
    apply Hother; discriminate.
Defined.

(** ** The hub mode switch *)

(** The polling path of the mode switch normalizes what the vendor
    reports at that moment. *)
Lemma HubModeSwitch_async_update_run (K : Consts) (w : World) (v : value) :
  vendor_info w !! "mode" = Some v ->
  mode (hub (snd (HubModeSwitch_async_update K w)))
  = (if py_in_tuple v (mode_tuple K) then v else VStr (ATTR_MODE_DEFAULT K)).
Proof.
  intros Hv. unfold HubModeSwitch_async_update, update_hub_info. run.
  now rewrite (update_mode_property_run K
                 (with_hub (hub_with_info (vendor_info w) (hub w)) w) v Hv).
Qed.

Lemma update_mode_property_api_calls (K : Consts) (w : World) :
  api_calls (snd (update_mode_property K w)) = api_calls w.
Proof.
  destruct (info (hub w) !! "mode") as [v|] eqn:Hv.
  - now rewrite (update_mode_property_run K w v Hv).
  - now rewrite (update_mode_property_missing K w Hv).
Qed.

(** C10: with the session mode one of the two modes, and the home mode
    not a substring of the default mode, the mode switch reads on
    exactly in default mode and off in home mode; turning it on sends
    set-mode with the default mode, turning it off sends set-mode with
    the home mode. *)
Theorem hub_mode_switch_polarity (K : Consts) (w : World) :
  mode_ok K (hub w) ->
  str_in (ATTR_MODE_HOME K) (ATTR_MODE_DEFAULT K) = false ->
  (HubModeSwitch_is_on K (hub w) = Ret true <->
   mode (hub w) = VStr (ATTR_MODE_DEFAULT K)) /\
  (mode (hub w) = VStr (ATTR_MODE_HOME K) ->
   HubModeSwitch_is_on K (hub w) = Ret false) /\
  api_calls (snd (HubModeSwitch_async_turn_on K w))
  = api_calls w ++ [set_mode (ATTR_MODE_DEFAULT K) (ATTR_MODE_REASON K)] /\
  api_calls (snd (HubModeSwitch_async_turn_off K w))
  = api_calls w ++ [set_mode (ATTR_MODE_HOME K) (ATTR_MODE_REASON K)].
Proof.
  intros Hok Hsub. unfold HubModeSwitch_is_on. repeat split.
  - intros Hon. destruct Hok as [Hm|Hm]; [exact Hm|].
    rewrite Hm in Hon. simpl in Hon. congruence.
  - intros ->. simpl. now rewrite str_in_refl.
  - intros ->. simpl. now rewrite Hsub.
  - unfold HubModeSwitch_async_turn_on. run. cbv beta iota.
    now rewrite update_mode_property_api_calls.
  - unfold HubModeSwitch_async_turn_off. run. cbv beta iota.
    now rewrite update_mode_property_api_calls.
Qed.

Lemma hub_mode_switch_polarity_witness :
  HubModeSwitch_is_on spec_consts (hub home_world) = Ret true /\
  api_calls (snd (HubModeSwitch_async_turn_off spec_consts home_world))
  = [set_mode "home" "Home Assistant"].
Proof.
  destruct (hub_mode_switch_polarity spec_consts home_world
              (or_introl eq_refl) eq_refl) as (Hon & _ & _ & Hoff).
  split; [apply Hon; reflexivity | exact Hoff].
Defined.

(** ** Invariants of the store *)

Section Preservation.

Variable I : World -> Prop.

Lemma preserves_ret {A} (a : A) : preserves I (mret a).
Proof. intros w Hw. exact Hw. Qed.

Lemma preserves_raise {A} (e : exn) : preserves I (raise (A := A) e).
Proof. intros w Hw. exact Hw. Qed.

Lemma preserves_gets {A} (f : World -> A) : preserves I (gets f).
Proof. intros w Hw. exact Hw. Qed.

Lemma preserves_lift_result {A} (r : result A) : preserves I (lift_result r).
Proof. intros w Hw. exact Hw. Qed.

Lemma preserves_dict_get (d : gmap string value) (k : string) :
  preserves I (dict_get d k).
Proof. intros w Hw. unfold dict_get. now destruct (d !! k). Qed.

Lemma preserves_modify (f : World -> World) :
  (forall w, I w -> I (f w)) -> preserves I (modify f).
Proof. intros Hf w Hw. now apply Hf. Qed.

Lemma preserves_bind {A B} (m : M World A) (k : A -> M World B) :
  preserves I m -> (forall a, preserves I (k a)) -> preserves I (m ≫= k).
Proof.
  intros Hm Hk w Hw. specialize (Hm w Hw).
  unfold mbind, M_bind, bind. destruct (m w) as [[a|e] w']; simpl in *.
  - now apply Hk.
  - exact Hm.
Qed.

Lemma preserves_bind_ret {A B} (a : A) (k : A -> M World B) :
  preserves I (k a) -> preserves I (ret a ≫= k).
Proof. intros Hk w Hw. now apply Hk. Qed.

Lemma preserves_bind_raise {A B} (e : exn) (k : A -> M World B) :
  preserves I (raise e ≫= k).
Proof. intros w Hw. exact Hw. Qed.

Lemma preserves_try_except {A} (body : M World A) (h : exn -> M World A) :
  preserves I body -> (forall e, preserves I (h e)) ->
  preserves I (try_except body h).
Proof.
  intros Hb Hh w Hw. specialize (Hb w Hw).
  unfold try_except. destruct (body w) as [[a|e] w']; simpl in *.
  - exact Hb.
  - now apply Hh.
Qed.

Lemma preserves_for_each {A} (l : list A) (body : A -> M World unit) :
  (forall x, preserves I (body x)) -> preserves I (for_each l body).
Proof.
  intros Hbody. induction l as [|x l IH]; simpl.
  - apply (preserves_ret tt).
  - apply (preserves_bind (body x) (fun _ => for_each l body)); auto.
Qed.

Lemma preserves_for_cameras_from (i : nat) (cams : list Camera)
    (body : nat -> Camera -> M World unit) :
  (forall j c, preserves I (body j c)) ->
  preserves I (for_cameras_from i cams body).
Proof.
  intros Hbody. revert i. induction cams as [|c cams IH]; intros i; simpl.
  - apply (preserves_ret tt).
  - apply (preserves_bind (body i c)); auto.
Qed.

Lemma preserves_for_cameras (body : nat -> Camera -> M World unit) :
  (forall j c, preserves I (body j c)) -> preserves I (for_cameras body).
Proof.
  intros Hbody. unfold for_cameras. apply preserves_bind.
  - apply preserves_gets.
  - intros cams. now apply preserves_for_cameras_from.
Qed.

End Preservation.

(** Breaks a computation down to its primitive effects. *)
Ltac preserve :=
  repeat match goal with
    | |- preserves _ (ret _ ≫= _) => apply preserves_bind_ret
    | |- preserves _ (raise _ ≫= _) => apply preserves_bind_raise
    | |- preserves _ (_ ≫= _) => apply preserves_bind; [|intros ?]
    | |- preserves _ (for_cameras _) => apply preserves_for_cameras; intros ? ?
    | |- preserves _ (for_each _ _) => apply preserves_for_each; intros ?
    | |- preserves _ (dict_get _ _) => apply preserves_dict_get
    | |- preserves _ (gets _) => apply preserves_gets
    | |- preserves _ (lift_result _) => apply preserves_lift_result
    | |- preserves _ (mret _) => apply preserves_ret
    | |- preserves _ (ret _) => apply preserves_ret
    | |- preserves _ (raise _) => apply preserves_raise
    | |- preserves _ (if ?b then _ else _) => destruct b
    | |- preserves _ (let x := ?v in _) => cbv zeta
    end.

Section ModeInvariant.

Variable K : Consts.

Lemma mode_inv_logger (e : LogEntry) : preserves (mode_inv K) (logger e).
Proof. apply preserves_modify. intros w Hw. exact Hw. Qed.

Lemma mode_inv_schedule (e : string) :
  preserves (mode_inv K) (schedule_update_ha_state e).
Proof. apply preserves_modify. intros w Hw. exact Hw. Qed.

Lemma mode_inv_bus (n : string) (d : BusData) :
  preserves (mode_inv K) (bus_async_fire n d).
Proof. apply preserves_modify. intros w Hw. exact Hw. Qed.

Lemma mode_inv_modify_cam (i : nat) (f : Camera -> Camera) :
  preserves (mode_inv K) (modify_cam i f).
Proof. apply preserves_modify. intros w Hw. exact Hw. Qed.

Lemma mode_inv_assign (v : value) :
  py_in_tuple v (mode_tuple K) = true -> preserves (mode_inv K) (assign_mode v).
Proof.
  intros Hv. apply preserves_modify. intros w _.
  apply py_in_tuple_modes in Hv. exact Hv.
Qed.

Lemma mode_inv_fire (tag : string) (evt : gmap string value) :
  preserves (mode_inv K) (fire_camera_event K tag evt).
Proof.
  unfold fire_camera_event. preserve;
    auto using mode_inv_logger, mode_inv_bus.
Qed.

Lemma mode_inv_on_alert (evt : gmap string value) (i : nat) (c : Camera) :
  preserves (mode_inv K) (on_alert K evt i c).
Proof.
  unfold on_alert, datetime_now. preserve;
    auto using mode_inv_modify_cam, mode_inv_schedule.
Qed.

Lemma mode_inv_on_offline (off : bool) (evt : gmap string value) (i : nat)
    (c : Camera) :
  preserves (mode_inv K) (on_offline off evt i c).
Proof.
  unfold on_offline. preserve;
    auto using mode_inv_modify_cam, mode_inv_schedule.
Qed.

(** The freshly constructed hub is in default mode. *)
Lemma mode_ok_init : mode_ok K (CamectHub_init K).
Proof. left. reflexivity. Qed.

(** [update_mode_property] keeps the mode among the two modes (and
    establishes that whenever it returns). *)
Lemma mode_inv_update_mode_property :
  preserves (mode_inv K) (update_mode_property K).
Proof.
  intros w Hw. destruct (info (hub w) !! "mode") as [v|] eqn:Hv.
  - rewrite (update_mode_property_run K w v Hv). unfold mode_inv, mode_ok.
    cbn [snd hub mode with_hub hub_with_mode].
    destruct (py_in_tuple v (mode_tuple K)) eqn:Hin.
    + now apply py_in_tuple_modes.
    + left. reflexivity.
  - now rewrite (update_mode_property_missing K w Hv).
Qed.

(** Every event, well-formed or not, leaves the mode among the two
    modes. *)
Lemma mode_inv_handle_camect_event (evt : gmap string value) :
  preserves (mode_inv K) (handle_camect_event K evt).
Proof.
  unfold handle_camect_event. apply preserves_try_except;
    [|intros e; apply mode_inv_logger].
  unfold handle_camect_event_body.
  apply preserves_bind; [apply preserves_dict_get|]. intros ty.
  apply preserves_bind; [apply preserves_lift_result|]. intros [|].
  - destruct (evt !! "desc") as [desc|] eqn:Hdesc.
    + rewrite (dict_get_Some _ _ _ Hdesc). apply preserves_bind_ret.
      destruct (py_in_tuple desc (mode_tuple K)) eqn:Hin.
      * preserve; auto using mode_inv_schedule, mode_inv_assign.
      * preserve. apply mode_inv_logger.
    + rewrite (dict_get_None _ _ Hdesc). preserve.
  - preserve;
      auto using mode_inv_logger, mode_inv_fire, mode_inv_on_alert,
        mode_inv_on_offline.
Qed.

End ModeInvariant.

(** ** Mode events *)

Example mode_event_switches_to_home :
  let w' := snd (handle_camect_event spec_consts mode_event home_world) in
  mode (hub w') = VStr "home" /\
  scheduled w' = ["switch.camect_hub123_mode"].
Proof. vm_compute. split; reflexivity. Qed.

(** C5: for an event whose type contains "mode" and that carries a
    description, (i) a description equal to the current mode leaves the
    hub untouched and queues no observer; (ii) a description that is the
    other of the two modes becomes the session mode and every mode
    switch is queued exactly once, in order, provided neither mode name
    contains the other; (iii) any other description is logged with a
    warning and the store is otherwise untouched. *)
Theorem mode_event_classification (K : Consts) (evt : gmap string value)
    (ty desc : value) (w : World) :
  evt !! "type" = Some ty ->
  py_in (VStr ATTR_MODE) ty = Ret true ->
  evt !! "desc" = Some desc ->
  fst (handle_camect_event K evt w) = Ret tt /\
  (desc = mode (hub w) ->
   hub (snd (handle_camect_event K evt w)) = hub w /\
   scheduled (snd (handle_camect_event K evt w)) = scheduled w) /\
  (mode_ok K (hub w) ->
   py_in_tuple desc (mode_tuple K) = true ->
   desc <> mode (hub w) ->
   str_in (ATTR_MODE_DEFAULT K) (ATTR_MODE_HOME K) = false ->
   str_in (ATTR_MODE_HOME K) (ATTR_MODE_DEFAULT K) = false ->
   mode (hub (snd (handle_camect_event K evt w))) = desc /\
   scheduled (snd (handle_camect_event K evt w))
   = scheduled w ++ modeswitch (hub w)) /\
  (py_in_tuple desc (mode_tuple K) = false ->
   snd (handle_camect_event K evt w)
   = with_log (log w ++ [LogWarnUnknownMode desc]) w).
Proof.
  intros Hty Hmode Hdesc.
  split; [apply try_except_logger_returns|].
  unfold handle_camect_event, handle_camect_event_body.
  rewrite (dict_get_Some _ _ _ Hty), (dict_get_Some _ _ _ Hdesc).
  run. rewrite Hmode.
  destruct (py_in_tuple desc (mode_tuple K)) eqn:Hin.
  - apply py_in_tuple_modes in Hin as Hrec. split; [|split].
    + intros Hsame. rewrite <- Hsame.
      destruct Hrec as [-> | ->]; simpl; now rewrite str_in_refl.
    + intros Hok _ Hne Hdh Hhd.
      destruct Hrec as [-> | ->], Hok as [Hm | Hm]; rewrite Hm in *;
        try congruence; simpl; rewrite ?Hdh, ?Hhd, for_each_schedule;
        split; reflexivity.
    + discriminate.
  - split; [|split].
    + intros _. split; reflexivity.
    + intros _ Habs. discriminate.
    + intros _. reflexivity.
Qed.

Lemma mode_event_classification_witness :
  mode (hub (snd (handle_camect_event spec_consts mode_event home_world)))
  = VStr "home" /\
  scheduled (snd (handle_camect_event spec_consts mode_event home_world))
  = scheduled home_world ++ modeswitch (hub home_world).
Proof.
  destruct (mode_event_classification spec_consts mode_event
              (VStr "mode") (VStr "home") home_world)
    as (_ & _ & Hother & _); try reflexivity.
  apply Hother; try reflexivity.
  - left. reflexivity.
  - discriminate.
Defined.

(** ** Unrecognized events *)

(** An event whose type contains none of the four tags the dispatcher
    tests for is logged and nothing else happens. *)
Lemma handle_unrecognized_run (K : Consts) (evt : gmap string value)
    (ty : string) (w : World) :
  evt !! "type" = Some (VStr ty) ->
  str_in ATTR_MODE ty = false ->
  str_in (ATTR_ALERT K) ty = false ->
  str_in (ATTR_CAM_OFFLINE K) ty = false ->
  str_in (ATTR_CAM_ONLINE K) ty = false ->
  handle_camect_event K evt w
  = (Ret tt, with_log (log w ++ [LogWarnUnhandled evt]) w).
Proof.
  intros Hty Hmode Halert Hoff Hon.
  unfold handle_camect_event, handle_camect_event_body.
  rewrite (dict_get_Some _ _ _ Hty). run. unfold py_in.
  now rewrite Hmode, Halert, Hoff, Hon.
Qed.

(** C8: with the alert, offline and online tags of the constants module
    containing "alert", "offline" and "online", an event whose type
    contains none of "mode", "alert", "offline", "online" makes the
    handler return normally with one warning added to the log: the hub
    and its cameras, the update queue, the event bus and the commands
    sent are as before. *)
Theorem unrecognized_event_discarded (K : Consts) (evt : gmap string value)
    (ty : string) (w : World) :
  str_in "alert" (ATTR_ALERT K) = true ->
  str_in "offline" (ATTR_CAM_OFFLINE K) = true ->
  str_in "online" (ATTR_CAM_ONLINE K) = true ->
  evt !! "type" = Some (VStr ty) ->
  str_in "mode" ty = false ->
  str_in "alert" ty = false ->
  str_in "offline" ty = false ->
  str_in "online" ty = false ->
  handle_camect_event K evt w
  = (Ret tt, with_log (log w ++ [LogWarnUnhandled evt]) w) /\
  hub (snd (handle_camect_event K evt w)) = hub w /\
  scheduled (snd (handle_camect_event K evt w)) = scheduled w /\
  bus (snd (handle_camect_event K evt w)) = bus w /\
  api_calls (snd (handle_camect_event K evt w)) = api_calls w.
Proof.
  intros Ka Koff Kon Hty Hmode Halert Hoff Hon.
  rewrite (handle_unrecognized_run K evt ty w Hty Hmode
             (str_in_absent _ _ _ Ka Halert)
             (str_in_absent _ _ _ Koff Hoff)
             (str_in_absent _ _ _ Kon Hon)).
  repeat split.
Qed.

Lemma unrecognized_event_discarded_witness :
  handle_camect_event spec_consts unknown_event home_world
  = (Ret tt,
     with_log (log home_world ++ [LogWarnUnhandled unknown_event]) home_world).
Proof.
  apply (unrecognized_event_discarded spec_consts unknown_event "heartbeat"
           home_world); reflexivity.
Defined.

(** A type that is not a string at all is not forwarded either: the
    [TypeError] is logged and the rest of the store is as before. *)
Example integer_type_discarded :
  let r := handle_camect_event spec_consts {[ "type" := VInt 7 ]} home_world in
  fst r = Ret tt /\ hub (snd r) = hub home_world /\ bus (snd r) = [] /\
  log (snd r) = [LogException {[ "type" := VInt 7 ]} TypeError].
Proof. vm_compute. repeat split. Qed.

(** ** Refresh of a camera record *)

Lemma with_camera_id (i : nat) (c : Camera) (w : World) :
  cameras (hub w) !! i = Some c -> with_camera i c w = w.
Proof.
  intros H. unfold with_camera. rewrite list_insert_id by exact H.
  now destruct w as [[] ? ? ? ? ? ? ?].
Qed.

Lemma refresh_loop_run (i : nat) (js : list CamJson) :
  forall (c : Camera) (w : World),
    cameras (hub w) !! i = Some c ->
    for_each js (fun json =>
      self ← gets (fun w => cameras (hub w) !! i);
      match self with
      | Some c =>
          if str_in (j_id json) (device_id c)
          then modify_cam i (with_json json)
          else mret tt
      | None => mret tt
      end) w
    = (Ret tt, with_camera i (refresh js c) w).
Proof.
  induction js as [|j js IH]; intros c w Hc.
  - simpl. unfold ret. now rewrite with_camera_id.
  - cbn [for_each refresh fold_left]. unfold bind at 1. run. rewrite Hc.
    destruct (str_in (j_id j) (device_id c)) eqn:Hhit.
    + rewrite (IH (with_json j c)).
      * unfold with_camera, with_hub, hub_with_cameras; simpl.
        rewrite (alter_lookup_insert _ _ _ _ Hc).
        now rewrite list_insert_insert_eq.
      * simpl. rewrite list_lookup_alter_eq, Hc. reflexivity.
    + now rewrite (IH c w Hc).
Qed.

Lemma Camera_async_update_run (i : nat) (c : Camera) (w : World) :
  cameras (hub w) !! i = Some c ->
  Camera_async_update i w
  = (Ret tt, with_camera i (refresh (vendor_cameras w) c) w).
Proof.
  intros Hc. unfold Camera_async_update.
  unfold mbind at 1, M_bind, bind, gets.
  now apply refresh_loop_run.
Qed.

Lemma refresh_device_id (js : list CamJson) (c : Camera) :
  device_id (refresh js c) = device_id c.
Proof.
  revert c. induction js as [|j js IH]; intros c; [reflexivity|].
  simpl. rewrite IH. now destruct (str_in (j_id j) (device_id c)).
Qed.

(** When every listing entry that matches the record reports the alerts
    disabled, and some entry matches, the refreshed record has them
    disabled. *)
Lemma refresh_alert_disabled (js : list CamJson) (c : Camera) :
  (forall j, In j js -> str_in (j_id j) (device_id c) = true ->
     j_is_alert_disabled j = true) ->
  (is_alert_disabled c = true \/
   exists j, In j js /\ str_in (j_id j) (device_id c) = true) ->
  is_alert_disabled (refresh js c) = true.
Proof.
  revert c. induction js as [|j js IH]; intros c Hall Hsome.
  - destruct Hsome as [H | (j & [] & _)]. exact H.
  - simpl. destruct (str_in (j_id j) (device_id c)) eqn:Hhit.
    + apply IH.
      * intros j' Hin. apply Hall. now right.
      * left. simpl. apply Hall; [now left | exact Hhit].
    + apply IH.
      * intros j' Hin. apply Hall. now right.
      * destruct Hsome as [H | (j' & [-> | Hin] & Hj')]; [now left | congruence |].
        right. eauto.
Qed.

(** ** Direction of the camera-id match *)

(** C2, as stated, fails: the record identifier "cam456" is a substring
    of the event's cam_id "hub123-cam456", yet an alert with that cam_id
    leaves the record as it was and queues nothing (the domain event is
    fired all the same). *)
Lemma composite_event_id_does_not_match :
  str_in "cam456" "hub123-cam456" = true /\
  map device_id (cameras (hub garage_world)) = ["cam456"] /\
  let w' := snd (handle_camect_event spec_consts composite_alert garage_world) in
  cameras (hub w') = cameras (hub garage_world) /\
  scheduled w' = [] /\
  length (bus w') = 1%nat.
Proof. vm_compute. repeat split. Qed.

(** C2, amended: for a well-formed alert, offline or online event, a
    camera record is updated (and queued for refresh) exactly when the
    event's cam_id is a substring of the record's identifier; every
    other record is left as it was. *)
Theorem event_cam_id_inside_record_id (K : Consts) (evt : gmap string value)
    (kind : CameraEventKind) (cid : string) (w : World) :
  is_camera_event K evt kind cid ->
  fst (handle_camect_event K evt w) = Ret tt /\
  cameras (hub (snd (handle_camect_event K evt w)))
  = map (fun c => if str_in cid (device_id c)
                  then updated K kind (clock w) c else c)
        (cameras (hub w)) /\
  scheduled (snd (handle_camect_event K evt w))
  = scheduled w ++
    flat_map (fun c => if str_in cid (device_id c) then queued kind c else [])
             (cameras (hub w)).
Proof.
  intros (ty & Hty & Hcid & Hmode & Hkind).
  destruct kind as [obj| |].
  - destruct Hkind as (Halert & Hobj).
    rewrite (handle_alert_run K evt ty cid obj w Hty Hmode Halert Hcid Hobj).
    repeat split.
  - destruct Hkind as (Halert & Hoff & [name Hname]).
    rewrite (handle_offline_run K evt ty cid name w Hty Hmode Halert Hoff
               Hname Hcid).
    repeat split.
  - destruct Hkind as (Halert & Hoff & Hon & [name Hname]).
    rewrite (handle_online_run K evt ty cid name w Hty Hmode Halert Hoff Hon
               Hname Hcid).
    repeat split.
Qed.

Lemma event_cam_id_inside_record_id_witness :
  map device_id (cameras (hub composite_world)) = ["hub123-cam456"] /\
  map offline
    (cameras (hub (snd (handle_camect_event spec_consts plain_offline
                          composite_world)))) = [true].
Proof.
  split; [reflexivity|].
  destruct (event_cam_id_inside_record_id spec_consts plain_offline
              OfflineEvent "cam456" composite_world) as (_ & Hcams & _).
  - exists "offline". repeat split; try reflexivity. eexists. reflexivity.
  - rewrite Hcams. reflexivity.
Defined.

(** An offline event makes every camera it matches unavailable; an
    online event makes it available again exactly when the vendor has
    it enabled. *)
Lemma offline_event_availability (K : Consts) (evt : gmap string value)
    (off : bool) (cid : string) (w : World) (i : nat) (c : Camera) :
  is_camera_event K evt (offline_kind off) cid ->
  cameras (hub w) !! i = Some c ->
  str_in cid (device_id c) = true ->
  Camera_available <$> (cameras (hub (snd (handle_camect_event K evt w))) !! i)
  = Some (enabled c && negb off).
Proof.
  intros (ty & Hty & Hcid & Hmode & Hkind) Hc Hhit. destruct off.
  - destruct Hkind as (Halert & Hoff & [name Hname]).
    rewrite (handle_offline_run K evt ty cid name w Hty Hmode Halert Hoff
               Hname Hcid).
    cbn [snd fired with_bus with_log after_loop with_scheduled with_hub
           hub_with_cameras hub cameras].
    rewrite lookup_map, Hc. unfold react, matches.
    cbn [fmap option_fmap option_map]. now rewrite Hhit.
  - destruct Hkind as (Halert & Hoff & Hon & [name Hname]).
    rewrite (handle_online_run K evt ty cid name w Hty Hmode Halert Hoff Hon
               Hname Hcid).
    cbn [snd fired with_bus with_log after_loop with_scheduled with_hub
           hub_with_cameras hub cameras].
    rewrite lookup_map, Hc. unfold react, matches.
    cbn [fmap option_fmap option_map]. now rewrite Hhit.
Qed.

(** ** Alert events *)

(** X21: for an alert event whose type is a string containing
    the alert tag and not "mode", whose cam_id is a string and whose
    detected_obj key is present, every camera record whose identifier
    contains the cam_id gets [last_motion] set to the processing time
    and [last_detected_obj] set to the detected_obj field, or to the
    sentinel label when that field is None or empty; each such record
    and then its motion sensors are queued for refresh; and one domain
    event is fired on the bus whether or not any record matched. *)
Theorem alert_event_handling (K : Consts) (evt : gmap string value)
    (obj : value) (cid : string) (w : World) :
  is_camera_event K evt (AlertEvent obj) cid ->
  fst (handle_camect_event K evt w) = Ret tt /\
  (forall i c,
     cameras (hub w) !! i = Some c -> str_in cid (device_id c) = true ->
     exists c',
       cameras (hub (snd (handle_camect_event K evt w))) !! i = Some c' /\
       last_motion c' = Some (clock w) /\
       last_detected_obj c'
       = (if truthy obj then obj else VStr (ATTR_UNKNOWN_OBJ K))) /\
  scheduled (snd (handle_camect_event K evt w))
  = scheduled w ++
    flat_map (fun c => if str_in cid (device_id c)
                       then cam_entity_id c :: motion_sensor c else [])
             (cameras (hub w)) /\
  bus (snd (handle_camect_event K evt w))
  = bus w ++
    [(ATTR_CAMECT_EVENT K,
      mkBusData (CameraEntity (id (hub w)) (VStr cid)) (ATTR_ALERT K) evt)].
Proof.
  intros (ty & Hty & Hcid & Hmode & Halert & Hobj).
  rewrite (handle_alert_run K evt ty cid obj w Hty Hmode Halert Hcid Hobj).
  cbn [fst snd]. split; [reflexivity|]. split; [|split; reflexivity].
  intros i c Hc Hhit.
  exists (react K (AlertEvent obj) (clock w) cid c). split.
  - cbn [fired with_bus with_log after_loop with_scheduled with_hub
           hub_with_cameras hub cameras].
    now rewrite lookup_map, Hc.
  - unfold react, matches. rewrite Hhit. split; reflexivity.
Qed.

Lemma alert_event_handling_witness :
  exists c',
    cameras (hub (snd (handle_camect_event spec_consts empty_label_alert
                         home_world))) !! 0%nat = Some c' /\
    last_motion c' = Some (clock home_world) /\
    last_detected_obj c' = VStr "unknown".
Proof.
  destruct (alert_event_handling spec_consts empty_label_alert VNone "cam1"
              home_world) as (_ & Hcams & _).
  - exists "alert". repeat split; reflexivity.
  - apply (Hcams 0%nat cam1); reflexivity.
Defined.

(** An alert for a camera the hub does not know is still forwarded. *)
Example alert_for_unknown_camera_is_forwarded :
  let evt : gmap string value :=
    {[ "type" := VStr "alert"; "cam_id" := VStr "cam9";
       "detected_obj" := VStr "person" ]} in
  let w' := snd (handle_camect_event spec_consts evt home_world) in
  cameras (hub w') = cameras (hub home_world) /\
  bus w' = [("camect_event",
             mkBusData (CameraEntity "camect_hub123" (VStr "cam9")) "alert" evt)].
Proof. vm_compute. split; reflexivity. Qed.

(** ** The alert switch *)

(** C7, as stated, fails in its second half: turning the switch of
    "cam1" off sends the disable-alert command with the camera's id and
    the fixed reason, and the switch still reads on. *)
Lemma alert_switch_still_on_after_turn_off :
  let w' := snd (CameraAlertSwitch_async_turn_off spec_consts cam1 home_world) in
  cameras (hub home_world) !! 0%nat = Some cam1 /\
  api_calls w' = [disable_alert "cam1" (ATTR_MODE_REASON spec_consts)] /\
  CameraAlertSwitch_is_on <$> (cameras (hub w') !! 0%nat) = Some true.
Proof. vm_compute. repeat split. Qed.

(** C7, amended: turning off the alert switch of a camera sends one
    disable-alert command with that camera's identifier and the fixed
    reason string and leaves the camera record, hence the value of
    [is_on], as it was; the switch reads off after a refresh of the
    camera in which the vendor's listing reports its alerts disabled. *)
Theorem alert_switch_turn_off (K : Consts) (w : World) (i : nat) (cam : Camera) :
  cameras (hub w) !! i = Some cam ->
  fst (CameraAlertSwitch_async_turn_off K cam w) = Ret tt /\
  api_calls (snd (CameraAlertSwitch_async_turn_off K cam w))
  = api_calls w ++ [disable_alert (device_id cam) (ATTR_MODE_REASON K)] /\
  cameras (hub (snd (CameraAlertSwitch_async_turn_off K cam w))) !! i
  = Some cam /\
  forall js,
    (exists j, In j js /\ str_in (j_id j) (device_id cam) = true) ->
    (forall j, In j js -> str_in (j_id j) (device_id cam) = true ->
       j_is_alert_disabled j = true) ->
    CameraAlertSwitch_is_on <$>
      (cameras (hub (snd (Camera_async_update i
         (with_vendor_cameras js
            (snd (CameraAlertSwitch_async_turn_off K cam w)))))) !! i)
    = Some false.
Proof.
  intros Hc. unfold CameraAlertSwitch_async_turn_off. run. cbn [fst snd].
  repeat split; try exact Hc.
  intros js Hsome Hall.
  rewrite (Camera_async_update_run i cam) by exact Hc.
  cbn [snd with_camera with_hub hub_with_cameras hub cameras].
  cbn [with_vendor_cameras with_api_calls vendor_cameras hub].
  rewrite list_lookup_insert_eq by (eapply lookup_lt_Some; exact Hc).
  cbn [fmap option_fmap option_map]. unfold CameraAlertSwitch_is_on.
  rewrite refresh_alert_disabled; [reflexivity | exact Hall | now right].
Qed.

Lemma alert_switch_turn_off_witness :
  api_calls (snd (CameraAlertSwitch_async_turn_off spec_consts cam1 home_world))
  = [disable_alert "cam1" "Home Assistant"] /\
  CameraAlertSwitch_is_on <$>
    (cameras (hub (snd (Camera_async_update 0
       (with_vendor_cameras [cam1_alerts_off]
          (snd (CameraAlertSwitch_async_turn_off spec_consts cam1
                  home_world)))))) !! 0%nat)
  = Some false.
Proof.
  destruct (alert_switch_turn_off spec_consts home_world 0 cam1 eq_refl)
    as (_ & Hcall & _ & Hrefresh).
  split; [exact Hcall|].
  apply Hrefresh.
  - exists cam1_alerts_off. split; [now left | reflexivity].
  - intros j [<- | []] _. reflexivity.
Defined.

(** * Further properties *)

(** ** The session mode *)

(** X1: whatever the event, well-formed or not, a session mode that is
    one of the two modes is one of the two modes after the event has
    been handled. *)
Theorem mode_stays_recognized (K : Consts) (evt : gmap string value)
    (w : World) :
  mode_ok K (hub w) ->
  mode_ok K (hub (snd (handle_camect_event K evt w))).
Proof. apply (mode_inv_handle_camect_event K evt). Qed.

Lemma mode_stays_recognized_witness :
  mode_ok spec_consts
    (hub (snd (handle_camect_event spec_consts mode_alert home_world))).
Proof.
  apply (mode_stays_recognized spec_consts mode_alert home_world).
  left. reflexivity.
Defined.

(** X2: [update_mode_property] either returns with the session mode one
    of the two modes, whatever it was before, or raises [KeyError] for
    the missing "mode" key and leaves the store as it was. *)
Theorem update_mode_property_outcome (K : Consts) (w : World) :
  match update_mode_property K w with
  | (Ret _, w') =>
      is_Some (info (hub w) !! "mode") /\ mode_ok K (hub w') /\
      w' = with_hub (hub_with_mode (mode (hub w')) (hub w)) w
  | (Raise e, w') =>
      info (hub w) !! "mode" = None /\ e = KeyError "mode" /\ w' = w
  end.
Proof.
  destruct (info (hub w) !! "mode") as [v|] eqn:Hv.
  - rewrite (update_mode_property_run K w v Hv).
    split; [eauto|]. split; [|reflexivity].
    unfold mode_ok. cbn [hub mode with_hub hub_with_mode].
    destruct (py_in_tuple v (mode_tuple K)) eqn:Hin.
    + now apply py_in_tuple_modes.
    + left. reflexivity.
  - rewrite (update_mode_property_missing K w Hv). repeat split.
Qed.

(** ** What an event cannot touch *)

Lemma untouched_refl (w : World) : untouched w w.
Proof. repeat split. Qed.

Lemma map_static_alter (f : Camera -> Camera) (i : nat) (l : list Camera) :
  (forall c, static (f c) = static c) ->
  map static (alter f i l) = map static l.
Proof.
  intros Hf. revert i. induction l as [|c l IH]; intros [|i]; simpl;
    [reflexivity | reflexivity | now rewrite Hf | f_equal; apply IH].
Qed.

Section Frame.

Variable K : Consts.
Variable w0 : World.

Lemma untouched_logger (e : LogEntry) : preserves (untouched w0) (logger e).
Proof. apply preserves_modify. intros w Hw. exact Hw. Qed.

Lemma untouched_schedule (e : string) :
  preserves (untouched w0) (schedule_update_ha_state e).
Proof. apply preserves_modify. intros w Hw. exact Hw. Qed.

Lemma untouched_bus (n : string) (d : BusData) :
  preserves (untouched w0) (bus_async_fire n d).
Proof. apply preserves_modify. intros w Hw. exact Hw. Qed.

Lemma untouched_assign (v : value) : preserves (untouched w0) (assign_mode v).
Proof. apply preserves_modify. intros w Hw. exact Hw. Qed.

Lemma untouched_modify_cam (i : nat) (f : Camera -> Camera) :
  (forall c, static (f c) = static c) ->
  preserves (untouched w0) (modify_cam i f).
Proof.
  intros Hf. apply preserves_modify.
  intros w (Hclk & Hapi & Hvi & Hvc & Hhub & Hcams).
  unfold untouched. cbn [with_hub hub_with_cameras hub cameras clock
    api_calls vendor_info vendor_cameras].
  repeat split; try assumption.
  now rewrite map_static_alter.
Qed.

Lemma untouched_fire (tag : string) (evt : gmap string value) :
  preserves (untouched w0) (fire_camera_event K tag evt).
Proof.
  unfold fire_camera_event. preserve;
    auto using untouched_logger, untouched_bus.
Qed.

Lemma untouched_on_alert (evt : gmap string value) (i : nat) (c : Camera) :
  preserves (untouched w0) (on_alert K evt i c).
Proof.
  unfold on_alert, datetime_now. preserve;
    auto using untouched_schedule;
    apply untouched_modify_cam; intros []; reflexivity.
Qed.

Lemma untouched_on_offline (off : bool) (evt : gmap string value) (i : nat)
    (c : Camera) :
  preserves (untouched w0) (on_offline off evt i c).
Proof.
  unfold on_offline. preserve;
    auto using untouched_schedule;
    apply untouched_modify_cam; intros []; reflexivity.
Qed.

Lemma untouched_handle_camect_event (evt : gmap string value) :
  preserves (untouched w0) (handle_camect_event K evt).
Proof.
  unfold handle_camect_event. apply preserves_try_except;
    [|intros e; apply untouched_logger].
  unfold handle_camect_event_body.
  preserve;
    auto using untouched_logger, untouched_schedule, untouched_assign,
      untouched_fire, untouched_on_alert, untouched_on_offline.
Qed.

End Frame.

(** X3: whatever the event, well-formed or not, handling it leaves the
    clock, the commands sent to the vendor, what the vendor reports,
    the hub's identity, cached info and mode-switch list, and, camera by
    camera, every field other than [last_motion], [last_detected_obj]
    and [offline] as they were; in particular no camera record is added,
    removed or reordered. *)
Theorem events_write_event_state_only (K : Consts) (evt : gmap string value)
    (w : World) :
  untouched w (snd (handle_camect_event K evt w)) /\
  length (cameras (hub (snd (handle_camect_event K evt w))))
  = length (cameras (hub w)) /\
  map device_id (cameras (hub (snd (handle_camect_event K evt w))))
  = map device_id (cameras (hub w)).
Proof.
  pose proof (untouched_handle_camect_event K w evt w (untouched_refl w))
    as Hun.
  split; [exact Hun|].
  destruct Hun as (_ & _ & _ & _ & _ & Hcams).
  split.
  - rewrite <- (length_map static), Hcams. apply length_map.
  - assert (Hid : forall l, map device_id l = map device_id (map static l)).
    { intros l. rewrite map_map. apply map_ext. now intros []. }
    now rewrite Hid, Hcams, <- Hid.
Qed.

(** ** Domain events on the bus *)

Section Bus.

Variable K : Consts.

Lemma bus_kept_logger (b : list (string * BusData)) (e : LogEntry) :
  preserves (fun w => bus w = b) (logger e).
Proof. apply preserves_modify. intros w Hw. exact Hw. Qed.

Lemma bus_kept_schedule (b : list (string * BusData)) (e : string) :
  preserves (fun w => bus w = b) (schedule_update_ha_state e).
Proof. apply preserves_modify. intros w Hw. exact Hw. Qed.

Lemma bus_kept_assign (b : list (string * BusData)) (v : value) :
  preserves (fun w => bus w = b) (assign_mode v).
Proof. apply preserves_modify. intros w Hw. exact Hw. Qed.

Lemma bus_kept_modify_cam (b : list (string * BusData)) (i : nat)
    (f : Camera -> Camera) :
  preserves (fun w => bus w = b) (modify_cam i f).
Proof. apply preserves_modify. intros w Hw. exact Hw. Qed.

Lemma bus_kept_on_alert (b : list (string * BusData))
    (evt : gmap string value) (i : nat) (c : Camera) :
  preserves (fun w => bus w = b) (on_alert K evt i c).
Proof.
  unfold on_alert, datetime_now. preserve;
    auto using bus_kept_schedule, bus_kept_modify_cam.
Qed.

Lemma bus_kept_on_offline (b : list (string * BusData)) (off : bool)
    (evt : gmap string value) (i : nat) (c : Camera) :
  preserves (fun w => bus w = b) (on_offline off evt i c).
Proof.
  unfold on_offline. preserve;
    auto using bus_kept_schedule, bus_kept_modify_cam.
Qed.

Lemma bus_at_most_one_kept {A} (m : M World A) :
  (forall b, preserves (fun w => bus w = b) m) -> bus_at_most_one m.
Proof. intros Hm w. left. now apply (Hm (bus w) w). Qed.

Lemma bus_at_most_one_bind {A B} (m : M World A) (k : A -> M World B) :
  (forall b, preserves (fun w => bus w = b) m) ->
  (forall a, bus_at_most_one (k a)) ->
  bus_at_most_one (m ≫= k).
Proof.
  intros Hm Hk w. specialize (Hm (bus w) w eq_refl).
  unfold mbind, M_bind, bind. destruct (m w) as [[a|e] w']; simpl in *.
  - destruct (Hk a w') as [H | [x H]]; rewrite H, Hm; eauto.
  - now left.
Qed.

Lemma bus_at_most_one_fire (n : string) (d : BusData) :
  bus_at_most_one (bus_async_fire n d).
Proof. intros w. right. now exists (n, d). Qed.

Lemma bus_at_most_one_try {A} (body : M World A) (h : exn -> M World A) :
  bus_at_most_one body ->
  (forall e b, preserves (fun w => bus w = b) (h e)) ->
  bus_at_most_one (try_except body h).
Proof.
  intros Hb Hh w. specialize (Hb w). unfold try_except.
  destruct (body w) as [[a|e] w']; simpl in *; [exact Hb|].
  now rewrite (Hh e (bus w') w' eq_refl).
Qed.

Lemma bus_at_most_one_fire_camera_event (tag : string)
    (evt : gmap string value) :
  bus_at_most_one (fire_camera_event K tag evt).
Proof.
  unfold fire_camera_event.
  apply bus_at_most_one_bind; [intros b; preserve | intros cid].
  apply bus_at_most_one_bind; [intros b; preserve | intros dev].
  cbv zeta.
  apply bus_at_most_one_bind;
    [intros b; apply bus_kept_logger | intros _; apply bus_at_most_one_fire].
Qed.

Lemma bus_kept_mode_branch (b : list (string * BusData))
    (evt : gmap string value) :
  preserves (fun w => bus w = b)
    (desc ← dict_get evt "desc";
     if py_in_tuple desc (mode_tuple K) then
       current ← gets (fun w => mode (hub w));
       desc1 ← dict_get evt "desc";
       same ← lift_result (py_in current desc1);
       if same : bool then mret tt
       else
         desc2 ← dict_get evt "desc";
         assign_mode desc2;;
         switches ← gets (fun w => modeswitch (hub w));
         for_each switches schedule_update_ha_state
     else
       desc1 ← dict_get evt "desc";
       logger (LogWarnUnknownMode desc1)).
Proof.
  preserve; auto using bus_kept_logger, bus_kept_schedule, bus_kept_assign.
Qed.

Lemma bus_at_most_one_handle (evt : gmap string value) :
  bus_at_most_one (handle_camect_event K evt).
Proof.
  unfold handle_camect_event.
  apply bus_at_most_one_try; [|intros e b; apply bus_kept_logger].
  unfold handle_camect_event_body.
  apply bus_at_most_one_bind; [intros b; preserve | intros ty].
  apply bus_at_most_one_bind; [intros b; preserve | intros [|]].
  { apply bus_at_most_one_kept. intros b. apply bus_kept_mode_branch. }
  apply bus_at_most_one_bind; [intros b; preserve | intros [|]].
  { apply bus_at_most_one_bind;
      [intros b; preserve; apply bus_kept_on_alert
      | intros _; apply bus_at_most_one_fire_camera_event]. }
  apply bus_at_most_one_bind; [intros b; preserve | intros [|]].
  { apply bus_at_most_one_bind; [intros b; preserve | intros name].
    apply bus_at_most_one_bind; [intros b; preserve | intros cid].
    apply bus_at_most_one_bind; [intros b; apply bus_kept_logger | intros _].
    apply bus_at_most_one_bind;
      [intros b; preserve; apply bus_kept_on_offline
      | intros _; apply bus_at_most_one_fire_camera_event]. }
  apply bus_at_most_one_bind; [intros b; preserve | intros [|]].
  { apply bus_at_most_one_bind; [intros b; preserve | intros name].
    apply bus_at_most_one_bind; [intros b; preserve | intros cid].
    apply bus_at_most_one_bind; [intros b; apply bus_kept_logger | intros _].
    apply bus_at_most_one_bind;
      [intros b; preserve; apply bus_kept_on_offline
      | intros _; apply bus_at_most_one_fire_camera_event]. }
  apply bus_at_most_one_kept. intros b. apply bus_kept_logger.
Qed.

End Bus.

(** X4: whatever the event, handling it keeps every domain event that
    is already on the bus and adds at most one. *)
Theorem at_most_one_domain_event (K : Consts) (evt : gmap string value)
    (w : World) :
  bus (snd (handle_camect_event K evt w)) = bus w \/
  exists x, bus (snd (handle_camect_event K evt w)) = bus w ++ [x].
Proof. apply (bus_at_most_one_handle K evt w). Qed.

(** X5: an event whose type contains "mode" never puts a domain event on
    the bus, whatever else it carries. *)
Theorem mode_event_fires_nothing (K : Consts) (evt : gmap string value)
    (ty : value) (w : World) :
  evt !! "type" = Some ty ->
  py_in (VStr ATTR_MODE) ty = Ret true ->
  bus (snd (handle_camect_event K evt w)) = bus w.
Proof.
  intros Hty Hmode.
  assert (Hkept : preserves (fun w' => bus w' = bus w)
                    (handle_camect_event K evt)).
  { unfold handle_camect_event.
    apply preserves_try_except; [|intros e; apply bus_kept_logger].
    unfold handle_camect_event_body.
    rewrite (dict_get_Some _ _ _ Hty). apply preserves_bind_ret.
    rewrite Hmode. apply (preserves_bind_ret _ true).
    apply bus_kept_mode_branch. }
  now apply Hkept.
Qed.

Lemma mode_event_fires_nothing_witness :
  bus (snd (handle_camect_event spec_consts mode_alert home_world)) = [].
Proof.
  apply (mode_event_fires_nothing spec_consts mode_alert (VStr "alert_mode")
           home_world); reflexivity.
Defined.

(** ** Malformed events *)

(** X6: an event without a "type" key, or whose type is null, a boolean
    or a number, changes nothing but the log, which gets the one
    exception entry; nothing is queued or fired. *)
Theorem event_without_usable_type (K : Consts) (evt : gmap string value)
    (w : World) :
  (evt !! "type" = None \/
   exists ty, evt !! "type" = Some ty /\
              (ty = VNone \/ (exists b, ty = VBool b) \/ exists z, ty = VInt z)) ->
  exists ex,
    handle_camect_event K evt w
    = (Ret tt, with_log (log w ++ [LogException evt ex]) w).
Proof.
  intros [Hno | (ty & Hty & Hbad)]; unfold handle_camect_event,
    handle_camect_event_body.
  - exists (KeyError "type"). now rewrite (dict_get_None _ _ Hno).
  - exists TypeError. rewrite (dict_get_Some _ _ _ Hty).
    destruct Hbad as [-> | [[b ->] | [z ->]]]; reflexivity.
Qed.

Lemma event_without_usable_type_witness :
  exists ex,
    handle_camect_event spec_consts {[ "cam_id" := VStr "cam1" ]} home_world
    = (Ret tt,
       with_log (log home_world ++
                 [LogException {[ "cam_id" := VStr "cam1" ]} ex]) home_world).
Proof.
  apply (event_without_usable_type spec_consts {[ "cam_id" := VStr "cam1" ]}
           home_world).
  left. reflexivity.
Defined.

(** The first camera of a loop whose test raises stops the loop before
    anything is written. *)
Lemma for_cameras_first_raises (body : nat -> Camera -> M World unit)
    (e : exn) (w : World) :
  cameras (hub w) <> [] ->
  (forall c, body 0%nat c w = (Raise e, w)) ->
  for_cameras body w = (Raise e, w).
Proof.
  intros Hne Hbody. unfold for_cameras. run.
  destruct (cameras (hub w)) as [|c rest]; [contradiction|].
  cbn [for_cameras_from]. run. now rewrite Hbody.
Qed.

Lemma camera_test_raises (v : value) (d : string) :
  (forall s, v <> VStr s) -> py_in v (VStr d) = Raise TypeError.
Proof. intros Hv. destruct v; try reflexivity. now destruct (Hv s). Qed.

Lemma bind_returns {A B} (m : M World A) (k : A -> M World B) (a : A)
    (w w' : World) :
  m w = (Ret a, w') -> (m ≫= k) w = k a w'.
Proof. intros H. unfold mbind, M_bind, bind. now rewrite H. Qed.

Lemma bind_raises {A B} (m : M World A) (k : A -> M World B) (e : exn)
    (w w' : World) :
  m w = (Raise e, w') -> (m ≫= k) w = (Raise e, w').
Proof. intros H. unfold mbind, M_bind, bind. now rewrite H. Qed.

Lemma with_log_nil (w : World) : with_log (log w ++ []) w = w.
Proof. rewrite app_nil_r. now destruct w. Qed.

(** The offline and online branches, from the log line on, when the
    cam_id is missing or not a string and the hub has a camera. *)
Lemma offline_branch_raises (K : Consts) (evt : gmap string value)
    (tag : string) (mk : value -> value -> LogEntry) (off : bool) (w : World) :
  (forall s, evt !! "cam_id" <> Some (VStr s)) ->
  cameras (hub w) <> [] ->
  exists e l,
    (cam_name ← dict_get evt "cam_name";
     cid ← dict_get evt "cam_id";
     logger (mk cam_name cid);;
     for_cameras (on_offline off evt);;
     fire_camera_event K tag evt) w
    = (Raise e, with_log (log w ++ l) w).
Proof.
  intros Hcid Hne.
  destruct (evt !! "cam_name") as [name|] eqn:Hname.
  - destruct (evt !! "cam_id") as [v|] eqn:Hv.
    + exists TypeError, [mk name v].
      rewrite (dict_get_Some _ _ _ Hname), (dict_get_Some _ _ _ Hv).
      rewrite (bind_returns _ _ name w w eq_refl).
      rewrite (bind_returns _ _ v w w eq_refl).
      rewrite (bind_returns _ _ tt w (with_log (log w ++ [mk name v]) w) eq_refl).
      apply bind_raises. apply for_cameras_first_raises; [exact Hne|].
      intros c. unfold on_offline. rewrite (dict_get_Some _ _ _ Hv). run.
      rewrite camera_test_raises; [reflexivity|].
      intros s ->. now apply (Hcid s).
    + exists (KeyError "cam_id"), []. rewrite with_log_nil.
      rewrite (dict_get_Some _ _ _ Hname), (dict_get_None _ _ Hv).
      rewrite (bind_returns _ _ name w w eq_refl).
      now apply bind_raises.
  - exists (KeyError "cam_name"), []. rewrite with_log_nil.
    rewrite (dict_get_None _ _ Hname). now apply bind_raises.
Qed.

(** X7: on a hub with at least one camera, an alert, offline or online
    event whose cam_id is missing or is not a string changes no camera
    record, queues nothing and fires no domain event: the error is
    raised at or before the first camera and ends in the log. *)
Theorem camera_event_without_string_cam_id (K : Consts)
    (evt : gmap string value) (ty : string) (w : World) :
  evt !! "type" = Some (VStr ty) ->
  str_in ATTR_MODE ty = false ->
  str_in (ATTR_ALERT K) ty = true \/ str_in (ATTR_CAM_OFFLINE K) ty = true \/
  str_in (ATTR_CAM_ONLINE K) ty = true ->
  (forall s, evt !! "cam_id" <> Some (VStr s)) ->
  cameras (hub w) <> [] ->
  fst (handle_camect_event K evt w) = Ret tt /\
  hub (snd (handle_camect_event K evt w)) = hub w /\
  scheduled (snd (handle_camect_event K evt w)) = scheduled w /\
  bus (snd (handle_camect_event K evt w)) = bus w.
Proof.
  intros Hty Hmode Hkind Hcid Hne.
  split; [apply try_except_logger_returns|].
  assert (Hbody : exists e l,
    handle_camect_event_body K evt w = (Raise e, with_log (log w ++ l) w)).
  { unfold handle_camect_event_body.
    rewrite (dict_get_Some _ _ _ Hty).
    rewrite (bind_returns _ _ (VStr ty) w w eq_refl).
    unfold py_in. rewrite Hmode.
    rewrite (bind_returns _ _ false w w eq_refl).
    destruct (str_in (ATTR_ALERT K) ty) eqn:Halert.
    { rewrite (bind_returns _ _ true w w eq_refl).
      assert (exists e, for_cameras (on_alert K evt) w = (Raise e, w))
        as [e He].
      { destruct (evt !! "cam_id") as [v|] eqn:Hv.
        - exists TypeError. apply for_cameras_first_raises; [exact Hne|].
          intros c. unfold on_alert. rewrite (dict_get_Some _ _ _ Hv). run.
          rewrite camera_test_raises; [reflexivity|].
          intros s ->. now apply (Hcid s).
        - exists (KeyError "cam_id").
          apply for_cameras_first_raises; [exact Hne|].
          intros c. unfold on_alert. now rewrite (dict_get_None _ _ Hv). }
      exists e, []. rewrite with_log_nil. now apply bind_raises. }
    rewrite (bind_returns _ _ false w w eq_refl).
    destruct (str_in (ATTR_CAM_OFFLINE K) ty) eqn:Hoff.
    { rewrite (bind_returns _ _ true w w eq_refl).
      now apply offline_branch_raises. }
    rewrite (bind_returns _ _ false w w eq_refl).
    destruct (str_in (ATTR_CAM_ONLINE K) ty) eqn:Hon.
    { rewrite (bind_returns _ _ true w w eq_refl).
      now apply offline_branch_raises. }
    destruct Hkind as [H | [H | H]]; discriminate. }
  destruct Hbody as (e & l & Hbody).
  unfold handle_camect_event, try_except. rewrite Hbody. repeat split.
Qed.

Lemma camera_event_without_string_cam_id_witness :
  hub (snd (handle_camect_event spec_consts null_id_alert home_world))
  = hub home_world /\
  bus (snd (handle_camect_event spec_consts null_id_alert home_world)) = [].
Proof.
  destruct (camera_event_without_string_cam_id spec_consts null_id_alert
              "alert" home_world) as (_ & Hhub & _ & Hbus).
  - reflexivity.
  - reflexivity.
  - left. reflexivity.
  - intros s. vm_compute. discriminate.
  - discriminate.
  - now split.
Defined.

(** X8: on a hub without cameras, an alert is forwarded whatever its
    cam_id is, as long as the key is there: under the camera entity
    built from the cam_id, or under the hub's own entity id when the
    cam_id is null; the detected_obj field is not looked at. Without
    the key nothing is forwarded. *)
Theorem alert_on_hub_without_cameras (K : Consts) (evt : gmap string value)
    (ty : string) (w : World) :
  evt !! "type" = Some (VStr ty) ->
  str_in ATTR_MODE ty = false ->
  str_in (ATTR_ALERT K) ty = true ->
  cameras (hub w) = [] ->
  match evt !! "cam_id" with
  | None => bus (snd (handle_camect_event K evt w)) = bus w
  | Some cid =>
      bus (snd (handle_camect_event K evt w))
      = bus w ++
        [(ATTR_CAMECT_EVENT K,
          mkBusData (if is_not_None cid then CameraEntity (id (hub w)) cid
                     else HubEntity (entity_id (hub w)))
                    (ATTR_ALERT K) evt)]
  end.
Proof.
  intros Hty Hmode Halert Hcams.
  unfold handle_camect_event, handle_camect_event_body, try_except.
  rewrite (dict_get_Some _ _ _ Hty).
  rewrite (bind_returns _ _ (VStr ty) w w eq_refl).
  unfold py_in. rewrite Hmode.
  rewrite (bind_returns _ _ false w w eq_refl). rewrite Halert.
  rewrite (bind_returns _ _ true w w eq_refl).
  assert (Hloop : for_cameras (on_alert K evt) w = (Ret tt, w)).
  { unfold for_cameras. run. now rewrite Hcams. }
  rewrite (bind_returns _ _ tt w w Hloop).
  unfold fire_camera_event.
  destruct (evt !! "cam_id") as [cid|] eqn:Hcid.
  - rewrite (dict_get_Some _ _ _ Hcid). run. now destruct (is_not_None cid).
  - now rewrite (dict_get_None _ _ Hcid).
Qed.

Lemma alert_on_hub_without_cameras_witness :
  bus (snd (handle_camect_event spec_consts null_id_alert fresh_world))
  = [("camect_event",
      mkBusData (HubEntity "camect.camect_hub123") "alert" null_id_alert)].
Proof.
  apply (alert_on_hub_without_cameras spec_consts null_id_alert "alert"
           fresh_world); reflexivity.
Defined.

(** ** Events in sequence *)

(** X9: once an event announcing one of the two modes has been handled,
    handling the same event again changes nothing at all: no mode
    change, no observer queued, no log entry. *)
Theorem repeated_mode_event_is_noop (K : Consts) (evt : gmap string value)
    (ty desc : value) (s : string) (w : World) :
  evt !! "type" = Some ty ->
  py_in (VStr ATTR_MODE) ty = Ret true ->
  evt !! "desc" = Some desc ->
  py_in_tuple desc (mode_tuple K) = true ->
  mode (hub w) = VStr s ->
  handle_camect_event K evt (snd (handle_camect_event K evt w))
  = (Ret tt, snd (handle_camect_event K evt w)).
Proof.
  intros Hty Hmode Hdesc Hin Hcur.
  assert (Hrun : forall w1 s1, mode (hub w1) = VStr s1 ->
    exists d, desc = VStr d /\
    handle_camect_event K evt w1
    = (Ret tt,
       if str_in s1 d then w1
       else with_scheduled (scheduled w1 ++ modeswitch (hub w1))
              (with_hub (hub_with_mode desc (hub w1)) w1))).
  { intros w1 s1 Hs1.
    apply py_in_tuple_modes in Hin as Hrec.
    assert (exists d, desc = VStr d) as [d Hd]
      by (destruct Hrec as [-> | ->]; eauto).
    exists d. split; [exact Hd|].
    unfold handle_camect_event, handle_camect_event_body.
    rewrite (dict_get_Some _ _ _ Hty), (dict_get_Some _ _ _ Hdesc).
    run. rewrite Hmode, Hin, Hs1, Hd. simpl.
    destruct (str_in s1 d); [reflexivity|].
    now rewrite for_each_schedule. }
  destruct (Hrun w s Hcur) as (d & Hd & Hfirst). rewrite Hfirst. cbn [snd].
  destruct (str_in s d) eqn:Hsd.
  - destruct (Hrun w s Hcur) as (d' & Hd' & Hagain).
    rewrite Hagain. assert (d' = d) as -> by congruence. now rewrite Hsd.
  - destruct (Hrun (with_scheduled (scheduled w ++ modeswitch (hub w))
                      (with_hub (hub_with_mode desc (hub w)) w)) d)
      as (d' & Hd' & Hagain).
    { cbn. exact Hd. }
    rewrite Hagain. assert (d' = d) as -> by congruence.
    now rewrite str_in_refl.
Qed.

Lemma repeated_mode_event_is_noop_witness :
  handle_camect_event spec_consts mode_event
    (snd (handle_camect_event spec_consts mode_event home_world))
  = (Ret tt, snd (handle_camect_event spec_consts mode_event home_world)).
Proof.
  apply (repeated_mode_event_is_noop spec_consts mode_event (VStr "mode")
           (VStr "home") "default" home_world); reflexivity.
Defined.

Lemma with_offline_round_trip (c : Camera) :
  offline c = false -> with_offline false (with_offline true c) = c.
Proof. destruct c. simpl. now intros ->. Qed.

(** X10: an offline event followed by an online event for the same
    cam_id gives back the camera records as they were, when no camera
    was offline to begin with. *)
Theorem offline_then_online_round_trip (K : Consts)
    (e_off e_on : gmap string value) (cid : string) (w : World) :
  is_camera_event K e_off OfflineEvent cid ->
  is_camera_event K e_on OnlineEvent cid ->
  Forall (fun c => offline c = false) (cameras (hub w)) ->
  cameras (hub (snd (handle_camect_event K e_on
                       (snd (handle_camect_event K e_off w)))))
  = cameras (hub w).
Proof.
  intros (ty & Hty & Hcid & Hmode & Halert & Hoff & [name Hname])
         (ty' & Hty' & Hcid' & Hmode' & Halert' & Hoff' & Hon' & [name' Hname'])
         Hall.
  rewrite (handle_offline_run K e_off ty cid name w Hty Hmode Halert Hoff
             Hname Hcid).
  rewrite (handle_online_run K e_on ty' cid name' _ Hty' Hmode' Halert' Hoff'
             Hon' Hname' Hcid').
  cbn [snd fired with_bus with_log after_loop with_scheduled with_hub
         hub_with_cameras hub cameras clock].
  rewrite map_map. induction Hall as [|c l Hc _ IH]; [reflexivity|].
  cbn [map]. rewrite IH. f_equal.
  unfold react, matches, updated.
  destruct (str_in cid (device_id c)) eqn:Hhit.
  - cbn [with_offline device_id]. rewrite Hhit.
    now apply with_offline_round_trip.
  - now rewrite Hhit.
Qed.

Lemma offline_then_online_round_trip_witness :
  cameras (hub (snd (handle_camect_event spec_consts cam1_online
                       (snd (handle_camect_event spec_consts cam1_offline
                               home_world)))))
  = cameras (hub home_world).
Proof.
  apply (offline_then_online_round_trip spec_consts cam1_offline cam1_online
           "cam1" home_world).
  - exists "offline". repeat split; try reflexivity. eexists. reflexivity.
  - exists "online". repeat split; try reflexivity. eexists. reflexivity.
  - repeat constructor.
Defined.

(** X11: after a well-formed alert, the motion sensor of a camera the
    alert matched reads on at every read whose clock is less than 20
    seconds past the alert's processing time and off at every later
    read, and its detected_obj attribute is the alert's label, or the
    sentinel when the label is null or empty. *)
Theorem alert_switches_motion_sensor_on (K : Consts)
    (evt : gmap string value) (obj : value) (cid : string) (w : World)
    (i : nat) (c : Camera) :
  is_camera_event K evt (AlertEvent obj) cid ->
  cameras (hub w) !! i = Some c ->
  str_in cid (device_id c) = true ->
  exists c',
    cameras (hub (snd (handle_camect_event K evt w))) !! i = Some c' /\
    (forall w2,
       fst (CameraMotionSensor_is_on c' w2)
       = Ret (bool_decide (clock w2 - clock w < 20 * 1000000))) /\
    CameraMotionSensor_extra_state_attributes c' !! "detected_obj"
    = Some (if truthy obj then obj else VStr (ATTR_UNKNOWN_OBJ K)).
Proof.
  intros (ty & Hty & Hcid & Hmode & Halert & Hobj) Hc Hhit.
  rewrite (handle_alert_run K evt ty cid obj w Hty Hmode Halert Hcid Hobj).
  exists (react K (AlertEvent obj) (clock w) cid c).
  cbn [snd fired with_bus with_log after_loop with_scheduled with_hub
         hub_with_cameras hub cameras].
  rewrite lookup_map, Hc. split; [reflexivity|].
  unfold react, matches. rewrite Hhit. split.
  - intros w2. unfold CameraMotionSensor_is_on, motion_window. run.
    cbn [updated last_motion with_last_detected_obj with_last_motion].
    cbv beta iota.
    destruct (Z.gtb_spec (clock w) (clock w2 - 20 * 1000000)); cbn [fst];
      f_equal; symmetry.
    + apply bool_decide_eq_true. lia.
    + apply bool_decide_eq_false. lia.
  - unfold CameraMotionSensor_extra_state_attributes.
    now rewrite lookup_singleton_eq.
Qed.

Lemma alert_switches_motion_sensor_on_witness :
  exists c',
    cameras (hub (snd (handle_camect_event spec_consts person_alert
                         home_world))) !! 0%nat = Some c' /\
    fst (CameraMotionSensor_is_on c'
           (with_clock (clock home_world + 19999999) home_world)) = Ret true /\
    fst (CameraMotionSensor_is_on c'
           (with_clock (clock home_world + 20000000) home_world)) = Ret false.
Proof.
  destruct (alert_switches_motion_sensor_on spec_consts person_alert
              (VStr "person") "cam1" home_world 0 cam1) as (c' & Hc' & Hon & _).
  - exists "alert". repeat split; reflexivity.
  - reflexivity.
  - reflexivity.
  - exists c'. split; [exact Hc'|]. rewrite !Hon. split; reflexivity.
Defined.

(** ** Refresh by polling *)

Lemma with_json_device_id (j : CamJson) (c : Camera) :
  device_id (with_json j c) = device_id c.
Proof. reflexivity. Qed.

Lemma with_json_twice (j j' : CamJson) (c : Camera) :
  with_json j (with_json j' c) = with_json j c.
Proof. reflexivity. Qed.

Lemma refresh_snoc (js : list CamJson) (j : CamJson) (c : Camera) :
  refresh (js ++ [j]) c
  = if str_in (j_id j) (device_id c) then with_json j (refresh js c)
    else refresh js c.
Proof.
  unfold refresh at 1. rewrite fold_left_app. cbn [fold_left].
  fold (refresh js c). now rewrite refresh_device_id.
Qed.

(** The refreshed record is the record with the last matching entry of
    the listing copied in, or the record itself when no entry matches. *)
Lemma refresh_last_match (js : list CamJson) (c : Camera) :
  refresh js c
  = match last_match js c with
    | Some j => with_json j c
    | None => c
    end.
Proof.
  induction js as [|j js IH] using rev_ind; [reflexivity|].
  rewrite refresh_snoc. unfold last_match in *. rewrite List.filter_app.
  cbn [List.filter]. destruct (str_in (j_id j) (device_id c)).
  - rewrite last_snoc, IH.
    now destruct (last (List.filter _ js)).
  - now rewrite app_nil_r.
Qed.



(** X13: a refresh of the camera at position [i] never changes what
    events and setup wrote to the record (last motion, last detected
    object, the offline flag, the linked observers) nor its identifier,
    and it leaves every other camera record, and the rest of the store,
    as it was. *)
Theorem async_update_keeps_event_state (i : nat) (c : Camera) (w : World) :
  cameras (hub w) !! i = Some c ->
  exists c',
    Camera_async_update i w = (Ret tt, with_camera i c' w) /\
    device_id c' = device_id c /\
    cam_entity_id c' = cam_entity_id c /\
    last_motion c' = last_motion c /\
    last_detected_obj c' = last_detected_obj c /\
    offline c' = offline c /\
    alert_switch c' = alert_switch c /\
    motion_sensor c' = motion_sensor c /\
    forall k, k <> i ->
      cameras (hub (with_camera i c' w)) !! k = cameras (hub w) !! k.
Proof.
  intros Hc. exists (refresh (vendor_cameras w) c).
  split; [now apply Camera_async_update_run|].
  rewrite refresh_last_match.
  destruct (last_match (vendor_cameras w) c) as [j|]; repeat split;
    intros k Hk; cbn [with_camera with_hub hub_with_cameras hub cameras];
    now rewrite list_lookup_insert_ne.
Qed.

Lemma async_update_keeps_event_state_witness :
  exists c',
    Camera_async_update 0
      (with_vendor_cameras [cam1_alerts_off]
         (snd (handle_camect_event spec_consts cam1_offline home_world)))
    = (Ret tt,
       with_camera 0 c'
         (with_vendor_cameras [cam1_alerts_off]
            (snd (handle_camect_event spec_consts cam1_offline home_world)))) /\
    offline c' = true.
Proof.
  destruct (async_update_keeps_event_state 0 (with_offline true cam1)
              (with_vendor_cameras [cam1_alerts_off]
                 (snd (handle_camect_event spec_consts cam1_offline
                         home_world))) eq_refl)
    as (c' & Hrun & _ & _ & _ & _ & Hoff & _).
  exists c'. split; [exact Hrun | exact Hoff].
Defined.

(** X14: refreshing a camera twice against the same listing gives the
    same store as refreshing it once. *)
Theorem async_update_idempotent (i : nat) (c : Camera) (w : World) :
  cameras (hub w) !! i = Some c ->
  Camera_async_update i (snd (Camera_async_update i w))
  = (Ret tt, snd (Camera_async_update i w)).
Proof.
  intros Hc. rewrite (Camera_async_update_run i c w Hc). cbn [snd].
  assert (Hi : (i < length (cameras (hub w)))%nat)
    by (eapply lookup_lt_Some; exact Hc).
  rewrite (Camera_async_update_run i (refresh (vendor_cameras w) c)).
  2:{ cbn [with_camera with_hub hub_with_cameras hub cameras].
      now apply list_lookup_insert_eq. }
  f_equal.
  assert (Hre : refresh (vendor_cameras w) (refresh (vendor_cameras w) c)
                = refresh (vendor_cameras w) c).
  { rewrite (refresh_last_match (vendor_cameras w) (refresh _ c)).
    unfold last_match. rewrite refresh_device_id.
    fold (last_match (vendor_cameras w) c).
    rewrite refresh_last_match.
    destruct (last_match (vendor_cameras w) c); reflexivity. }
  replace (vendor_cameras (with_camera i (refresh (vendor_cameras w) c) w))
    with (vendor_cameras w) by reflexivity.
  rewrite Hre. unfold with_camera, with_hub, hub_with_cameras. simpl.
  now rewrite list_insert_insert_eq.
Qed.

Lemma async_update_idempotent_witness :
  Camera_async_update 0
    (snd (Camera_async_update 0
            (with_vendor_cameras [cam1_alerts_off] home_world)))
  = (Ret tt,
     snd (Camera_async_update 0
            (with_vendor_cameras [cam1_alerts_off] home_world))).
Proof.
  apply (async_update_idempotent 0 cam1
           (with_vendor_cameras [cam1_alerts_off] home_world)).
  reflexivity.
Defined.

(** ** Commands of the mode switch *)

Lemma mode_switch_command_run (K : Consts) (new_mode : string) (w : World) :
  (api_call (set_mode new_mode (ATTR_MODE_REASON K));;
   update_mode_property K) w
  = update_mode_property K
      (with_api_calls
         (api_calls w ++ [set_mode new_mode (ATTR_MODE_REASON K)]) w).
Proof. reflexivity. Qed.

Lemma mode_switch_command_settles (K : Consts) (new_mode : string) (w : World)
    (cached : value) :
  info (hub w) !! "mode" = Some cached ->
  (api_call (set_mode new_mode (ATTR_MODE_REASON K));;
   update_mode_property K) w
  = (Ret tt,
     with_hub (hub_with_mode (normalized K cached) (hub w))
       (with_api_calls
          (api_calls w ++ [set_mode new_mode (ATTR_MODE_REASON K)]) w)).
Proof.
  intros Hcached. rewrite mode_switch_command_run.
  now rewrite (update_mode_property_run K
                 (with_api_calls
                    (api_calls w ++ [set_mode new_mode (ATTR_MODE_REASON K)]) w)
                 cached Hcached).
Qed.

Lemma mode_switch_command_raises (K : Consts) (new_mode : string) (w : World) :
  info (hub w) !! "mode" = None ->
  (api_call (set_mode new_mode (ATTR_MODE_REASON K));;
   update_mode_property K) w
  = (Raise (KeyError "mode"),
     with_api_calls
       (api_calls w ++ [set_mode new_mode (ATTR_MODE_REASON K)]) w).
Proof.
  intros Hno. rewrite mode_switch_command_run.
  now rewrite (update_mode_property_missing K
                 (with_api_calls
                    (api_calls w ++ [set_mode new_mode (ATTR_MODE_REASON K)]) w)
                 Hno).
Qed.

(** X15: turning the mode switch on or off sends the command and then
    settles the session mode on the cached report, not on the mode that
    was asked for; the switch follows the command at the next poll, when
    the vendor reports the new mode. *)
Theorem mode_switch_follows_at_next_poll (K : Consts) (w : World)
    (cached : value) :
  info (hub w) !! "mode" = Some cached ->
  str_in (ATTR_MODE_HOME K) (ATTR_MODE_DEFAULT K) = false ->
  mode (hub (snd (HubModeSwitch_async_turn_off K w))) = normalized K cached /\
  mode (hub (snd (HubModeSwitch_async_turn_on K w))) = normalized K cached /\
  (vendor_info w !! "mode" = Some (VStr (ATTR_MODE_HOME K)) ->
   HubModeSwitch_is_on K
     (hub (snd (HubModeSwitch_async_update K
                  (snd (HubModeSwitch_async_turn_off K w))))) = Ret false) /\
  (vendor_info w !! "mode" = Some (VStr (ATTR_MODE_DEFAULT K)) ->
   HubModeSwitch_is_on K
     (hub (snd (HubModeSwitch_async_update K
                  (snd (HubModeSwitch_async_turn_on K w))))) = Ret true).
Proof.
  intros Hcached Hsub.
  unfold HubModeSwitch_async_turn_off, HubModeSwitch_async_turn_on.
  rewrite !(mode_switch_command_settles K _ w cached Hcached).
  cbn [snd]. repeat split.
  - intros Hv.
    unfold HubModeSwitch_is_on.
    rewrite (HubModeSwitch_async_update_run K _ (VStr (ATTR_MODE_HOME K)))
      by exact Hv.
    assert (Hin : py_in_tuple (VStr (ATTR_MODE_HOME K)) (mode_tuple K) = true)
      by (apply py_in_tuple_modes; now right).
    rewrite Hin. simpl. now rewrite Hsub.
  - intros Hv.
    unfold HubModeSwitch_is_on.
    rewrite (HubModeSwitch_async_update_run K _ (VStr (ATTR_MODE_DEFAULT K)))
      by exact Hv.
    assert (Hin : py_in_tuple (VStr (ATTR_MODE_DEFAULT K)) (mode_tuple K) = true)
      by (apply py_in_tuple_modes; now left).
    rewrite Hin. simpl. now rewrite str_in_refl.
Qed.

Lemma mode_switch_follows_at_next_poll_witness :
  HubModeSwitch_is_on spec_consts
    (hub (snd (HubModeSwitch_async_turn_off spec_consts polled_home_world)))
  = Ret true /\
  HubModeSwitch_is_on spec_consts
    (hub (snd (HubModeSwitch_async_update spec_consts
                 (snd (HubModeSwitch_async_turn_off spec_consts
                         polled_home_world))))) = Ret false.
Proof.
  destruct (mode_switch_follows_at_next_poll spec_consts polled_home_world
              (VStr "default") eq_refl eq_refl) as (Hoff & _ & Hpoll & _).
  split.
  - unfold HubModeSwitch_is_on. rewrite Hoff. reflexivity.
  - apply Hpoll. reflexivity.
Defined.

(** X16: when the cached report has no "mode" key, turning the mode
    switch on or off still sends the command, then raises [KeyError] to
    the caller and leaves the hub as it was. *)
Theorem mode_switch_command_without_cached_mode (K : Consts) (w : World) :
  info (hub w) !! "mode" = None ->
  HubModeSwitch_async_turn_off K w
  = (Raise (KeyError "mode"),
     with_api_calls
       (api_calls w ++ [set_mode (ATTR_MODE_HOME K) (ATTR_MODE_REASON K)]) w) /\
  HubModeSwitch_async_turn_on K w
  = (Raise (KeyError "mode"),
     with_api_calls
       (api_calls w ++ [set_mode (ATTR_MODE_DEFAULT K) (ATTR_MODE_REASON K)]) w).
Proof.
  intros Hno.
  unfold HubModeSwitch_async_turn_off, HubModeSwitch_async_turn_on.
  now rewrite !(mode_switch_command_raises K _ w Hno).
Qed.

Lemma mode_switch_command_without_cached_mode_witness :
  HubModeSwitch_async_turn_off spec_consts home_world
  = (Raise (KeyError "mode"),
     with_api_calls [set_mode "home" "Home Assistant"] home_world).
Proof.
  apply (mode_switch_command_without_cached_mode spec_consts home_world).
  reflexivity.
Defined.

(** ** Setup of the platforms *)

Lemma Camera_init_hub_id (K : Consts) (h h' : CamectHub) (j : CamJson) :
  hub_id h = hub_id h' -> Camera_init K h j = Camera_init K h' j.
Proof. intros H. unfold Camera_init. now rewrite H. Qed.

Lemma camera_setup_loop (K : Consts) (js : list CamJson) :
  forall w,
    for_each js (new_Camera K) w
    = (Ret tt,
       with_hub (hub_with_cameras
                   (cameras (hub w) ++ map (Camera_init K (hub w)) js)
                   (hub w)) w).
Proof.
  induction js as [|j js IH]; intros w.
  - simpl. rewrite app_nil_r. unfold ret. now destruct w as [[] ? ? ? ? ? ? ?].
  - cbn [for_each map]. unfold bind at 1. unfold new_Camera at 1. run.
    rewrite IH. unfold with_hub, hub_with_cameras; simpl.
    now rewrite <- app_assoc.
Qed.

Lemma flat_map_nil {A B} (l : list A) : flat_map (fun _ : A => @nil B) l = [].
Proof. induction l; simpl; auto. Qed.

(** A loop over the cameras that only rewrites the visited record. *)
Lemma for_cameras_rewrite (upd : Camera -> Camera) (w : World) :
  for_cameras (fun i _ => modify_cam i upd) w
  = (Ret tt, with_hub (hub_with_cameras (map upd (cameras (hub w))) (hub w)) w).
Proof.
  rewrite (for_cameras_map upd (fun _ => [])).
  - rewrite flat_map_nil, app_nil_r. unfold after_loop.
    now destruct w as [[] ? ? ? ? ? ? ?].
  - intros i c w' _ Hc. unfold modify_cam, modify.
    rewrite (alter_lookup_insert _ _ _ _ Hc), app_nil_r.
    unfold after_loop. now destruct w' as [[] ? ? ? ? ? ? ?].
Qed.

Lemma camera_async_setup_entry_run (K : Consts) (w : World) :
  camera_async_setup_entry K w
  = (Ret tt,
     with_hub (hub_with_cameras
                 (cameras (hub w) ++
                  map (Camera_init K (hub w)) (vendor_cameras w))
                 (hub w)) w).
Proof.
  unfold camera_async_setup_entry.
  rewrite (bind_returns (gets vendor_cameras) _ (vendor_cameras w) w w eq_refl).
  apply camera_setup_loop.
Qed.

Lemma switch_async_setup_entry_run (K : Consts) (w : World) :
  switch_async_setup_entry K w
  = (Ret tt,
     with_hub
       (hub_with_modeswitch
          (modeswitch (hub w) ++
           [SWITCH_DOMAIN +:+ "." +:+ id (hub w) +:+ "_" +:+ ATTR_MODE])
          (hub_with_cameras
             (map (fun c =>
                     with_alert_switch
                       (alert_switch c ++
                        [cam_entity_id c +:+ "_" +:+ ATTR_ALERT_DISABLED K]) c)
                  (cameras (hub w)))
             (hub w)))
       w).
Proof.
  unfold switch_async_setup_entry, new_CameraAlertSwitch.
  rewrite (bind_returns new_HubModeSwitch _ tt w _ eq_refl).
  now rewrite for_cameras_rewrite.
Qed.

Lemma binary_sensor_async_setup_entry_run (K : Consts) (w : World) :
  binary_sensor_async_setup_entry K w
  = (Ret tt,
     with_hub
       (hub_with_cameras
          (map (fun c =>
                  with_motion_sensor
                    (motion_sensor c ++
                     [cam_entity_id c +:+ "_" +:+ ATTR_MOTION K]) c)
               (cameras (hub w)))
          (hub w))
       w).
Proof.
  unfold binary_sensor_async_setup_entry, new_CameraMotionSensor.
  apply for_cameras_rewrite.
Qed.

(** The store after the three platform setups. *)
Lemma forward_entry_setups_run (K : Consts) (w : World) :
  forward_entry_setups K w
  = (Ret tt,
     with_hub
       (hub_with_modeswitch
          (modeswitch (hub w) ++
           [SWITCH_DOMAIN +:+ "." +:+ id (hub w) +:+ "_" +:+ ATTR_MODE])
          (hub_with_cameras
             (map (linked K)
                (cameras (hub w) ++
                 map (Camera_init K (hub w)) (vendor_cameras w)))
             (hub w)))
       w).
Proof.
  unfold forward_entry_setups.
  rewrite (bind_returns _ _ tt w _ (camera_async_setup_entry_run K w)).
  rewrite (bind_returns _ _ tt _ _ (switch_async_setup_entry_run K _)).
  rewrite binary_sensor_async_setup_entry_run.
  unfold with_hub, hub_with_cameras, hub_with_modeswitch, linked; simpl.
  now rewrite map_map.
Qed.

(** X17: on a hub that has no cameras yet, the platform setups create
    exactly one camera record per entry of the vendor's listing, in the
    listing's order, each carrying the entry's id, linked to exactly one
    alert switch and one motion sensor, not offline, without a last
    motion, available exactly when the entry is not disabled and with
    its alert switch on exactly when the entry's alerts are not
    disabled; and the hub gets one more mode switch. *)
Theorem setup_creates_one_record_per_camera (K : Consts) (w : World) :
  cameras (hub w) = [] ->
  fst (forward_entry_setups K w) = Ret tt /\
  Forall2
    (fun j c =>
       device_id c = j_id j /\
       alert_switch c = [cam_entity_id c +:+ "_" +:+ ATTR_ALERT_DISABLED K] /\
       motion_sensor c = [cam_entity_id c +:+ "_" +:+ ATTR_MOTION K] /\
       last_motion c = None /\
       offline c = false /\
       Camera_available c = negb (j_disabled j) /\
       CameraAlertSwitch_is_on c = negb (j_is_alert_disabled j))
    (vendor_cameras w)
    (cameras (hub (snd (forward_entry_setups K w)))) /\
  modeswitch (hub (snd (forward_entry_setups K w)))
  = modeswitch (hub w) ++
    [SWITCH_DOMAIN +:+ "." +:+ id (hub w) +:+ "_" +:+ ATTR_MODE].
Proof.
  intros Hempty. rewrite forward_entry_setups_run.
  cbn [fst snd with_hub hub hub_with_modeswitch hub_with_cameras cameras
         modeswitch].
  split; [reflexivity|]. split; [|reflexivity].
  rewrite Hempty. cbn [app].
  induction (vendor_cameras w) as [|j js IH]; constructor; [|exact IH].
  repeat split.
  unfold Camera_available, linked, Camera_init. simpl.
  now destruct (j_disabled j).
Qed.

Lemma setup_creates_one_record_per_camera_witness :
  map device_id
    (cameras (hub (snd (forward_entry_setups spec_consts two_camera_world))))
  = ["cam1"; "cam2"] /\
  map Camera_available
    (cameras (hub (snd (forward_entry_setups spec_consts two_camera_world))))
  = [true; false].
Proof.
  destruct (setup_creates_one_record_per_camera spec_consts two_camera_world
              eq_refl) as (_ & Hall & _).
  remember (cameras (hub (snd (forward_entry_setups spec_consts
                                 two_camera_world)))) as cs.
  clear Heqcs.
  inversion Hall as [|j1 c1 js1 cs1 H1 Hrest]; subst.
  inversion Hrest as [|j2 c2 js2 cs2 H2 Hnil]; subst.
  inversion Hnil; subst.
  destruct H1 as (Hd1 & _ & _ & _ & _ & Ha1 & _).
  destruct H2 as (Hd2 & _ & _ & _ & _ & Ha2 & _).
  cbn [map]. now rewrite Hd1, Hd2, Ha1, Ha2.
Defined.

Lemma entity_id_inj (K : Consts) (h : CamectHub) :
  Inj (=) (=)
    (fun s => CAMERA_DOMAIN +:+ "." +:+ DOMAIN K +:+ "_" +:+ hub_id h +:+ "_" +:+ s).
Proof.
  intros s t H.
  repeat (apply String.app_inj in H). exact H.
Qed.

Lemma unique_id_inj (K : Consts) (h : CamectHub) :
  Inj (=) (=) (fun s => DOMAIN K +:+ "_" +:+ hub_id h +:+ "_" +:+ s).
Proof.
  intros s t H.
  repeat (apply String.app_inj in H). exact H.
Qed.

Lemma setup_entity_ids (K : Consts) (h : CamectHub) (js : list CamJson) :
  cam_entity_id <$> map (linked K) (map (Camera_init K h) js)
  = (fun s => CAMERA_DOMAIN +:+ "." +:+ DOMAIN K +:+ "_" +:+ hub_id h +:+
              "_" +:+ s) <$> (j_id <$> js).
Proof. induction js as [|j js IH]; [reflexivity|]. cbn. f_equal. exact IH. Qed.

Lemma setup_unique_ids (K : Consts) (h : CamectHub) (js : list CamJson) :
  Camera_unique_id <$> map (linked K) (map (Camera_init K h) js)
  = (fun s => DOMAIN K +:+ "_" +:+ hub_id h +:+ "_" +:+ s) <$> (j_id <$> js).
Proof. induction js as [|j js IH]; [reflexivity|]. cbn. f_equal. exact IH. Qed.

(** X18: when the ids of the vendor's listing are pairwise different,
    the camera records set up on a hub without cameras have pairwise
    different entity ids and pairwise different unique ids. *)
Theorem setup_entity_ids_distinct (K : Consts) (w : World) :
  cameras (hub w) = [] ->
  NoDup (j_id <$> vendor_cameras w) ->
  NoDup (cam_entity_id <$>
           cameras (hub (snd (forward_entry_setups K w)))) /\
  NoDup (Camera_unique_id <$>
           cameras (hub (snd (forward_entry_setups K w)))).
Proof.
  intros Hempty Hnd. rewrite forward_entry_setups_run.
  cbn [snd with_hub hub hub_with_modeswitch hub_with_cameras cameras].
  rewrite Hempty. cbn [app].
  rewrite setup_entity_ids, setup_unique_ids. split.
  - exact (@NoDup_fmap_2 _ _ _ (entity_id_inj K (hub w)) _ Hnd).
  - exact (@NoDup_fmap_2 _ _ _ (unique_id_inj K (hub w)) _ Hnd).
Qed.

Lemma setup_entity_ids_distinct_witness :
  NoDup (cam_entity_id <$>
           cameras (hub (snd (forward_entry_setups spec_consts
                                two_camera_world)))).
Proof.
  apply (setup_entity_ids_distinct spec_consts two_camera_world).
  - reflexivity.
  - apply NoDup_cons. split; [|apply NoDup_singleton].
    intros Hin. apply list_elem_of_singleton in Hin. discriminate.
Defined.

(** ** Icons *)

(** X19: the icon of each view agrees with the state the view reports:
    the alert switch shows the plain bell exactly when it is on, the
    mode switch the shield exactly when it is on, and the motion sensor
    the active icon exactly when it is on. *)
Theorem icons_agree_with_state (K : Consts) (c : Camera) (h : CamectHub)
    (w : World) :
  (CameraAlertSwitch_icon c = "mdi:bell" <-> CameraAlertSwitch_is_on c = true) /\
  (HubModeSwitch_icon K h = Ret "mdi:shield-check" <->
   HubModeSwitch_is_on K h = Ret true) /\
  (fst (CameraMotionSensor_icon c w) = Ret "mdi:motion-sensor" <->
   fst (CameraMotionSensor_is_on c w) = Ret true).
Proof.
  split; [|split].
  - unfold CameraAlertSwitch_icon, CameraAlertSwitch_is_on.
    destruct (is_alert_disabled c); split; (reflexivity || discriminate).
  - unfold HubModeSwitch_icon, HubModeSwitch_is_on.
    destruct (py_in (mode h) (VStr (ATTR_MODE_DEFAULT K))) as [[|]|e];
      split; (reflexivity || discriminate).
  - unfold CameraMotionSensor_icon. run.
    destruct (CameraMotionSensor_is_on c w) as [[[|]|e] w'];
      split; (reflexivity || discriminate).
Qed.

(** ** Commands of the alert switch *)

(** X20: turning the alert switch of a camera on or off sends exactly
    one command, enable-alert or disable-alert, with the camera's
    identifier and the fixed reason, and writes nothing else; after a
    refresh of that camera the switch reads what the last matching
    entry of the vendor's listing reports, whichever command was
    sent. *)
Theorem alert_switch_reads_the_listing (K : Consts) (w : World) (i : nat)
    (cam : Camera) (on : bool) (j : CamJson) :
  cameras (hub w) !! i = Some cam ->
  last_match (vendor_cameras w) cam = Some j ->
  let command :=
    if on then CameraAlertSwitch_async_turn_on K cam
    else CameraAlertSwitch_async_turn_off K cam in
  command w
  = (Ret tt,
     with_api_calls
       (api_calls w ++
        [(if on then enable_alert else disable_alert)
           (device_id cam) (ATTR_MODE_REASON K)]) w) /\
  CameraAlertSwitch_is_on <$>
    (cameras (hub (snd (Camera_async_update i (snd (command w))))) !! i)
  = Some (negb (j_is_alert_disabled j)).
Proof.
  intros Hc Hj command.
  assert (Hrun : command w
                 = (Ret tt,
                    with_api_calls
                      (api_calls w ++
                       [(if on then enable_alert else disable_alert)
                          (device_id cam) (ATTR_MODE_REASON K)]) w))
    by (unfold command; now destruct on).
  split; [exact Hrun|]. rewrite Hrun. cbn [snd].
  rewrite (Camera_async_update_run i cam) by exact Hc.
  cbn [snd with_camera with_hub hub_with_cameras hub cameras].
  cbn [with_api_calls vendor_cameras hub].
  rewrite list_lookup_insert_eq by (eapply lookup_lt_Some; exact Hc).
  rewrite refresh_last_match, Hj. reflexivity.
Qed.

Lemma alert_switch_reads_the_listing_witness :
  CameraAlertSwitch_is_on <$>
    (cameras (hub (snd (Camera_async_update 0
       (snd (CameraAlertSwitch_async_turn_off spec_consts cam1 home_world)))))
     !! 0%nat)
  = Some true.
Proof.
  destruct (alert_switch_reads_the_listing spec_consts home_world 0 cam1 false
              cam1_json eq_refl eq_refl) as [_ Hread].
  exact Hread.
Defined.

(** ** Alerts without a detected object *)

(** A camera the alert does not match is passed over, whether or not the
    event carries a [detected_obj] key. *)
Lemma on_alert_passes_over (K : Consts) (evt : gmap string value)
    (cid : string) (i : nat) (c : Camera) (w : World) :
  evt !! "cam_id" = Some (VStr cid) ->
  str_in cid (device_id c) = false ->
  on_alert K evt i c w = (Ret tt, w).
Proof.
  intros Hcid Hmiss. unfold on_alert.
  rewrite (dict_get_Some _ _ _ Hcid). run. simpl. now rewrite Hmiss.
Qed.

(** On a camera the alert matches, the missing key is met after
    [last_motion] has been written and before anything else is. *)
Lemma on_alert_missing_obj (K : Consts) (evt : gmap string value)
    (cid : string) (i : nat) (c : Camera) (w : World) :
  evt !! "cam_id" = Some (VStr cid) ->
  evt !! "detected_obj" = None ->
  str_in cid (device_id c) = true ->
  on_alert K evt i c w
  = (Raise (KeyError "detected_obj"),
     with_hub (hub_with_cameras
                 (alter (with_last_motion (Some (clock w))) i (cameras (hub w)))
                 (hub w)) w).
Proof.
  intros Hcid Hobj Hhit. unfold on_alert.
  rewrite (dict_get_Some _ _ _ Hcid), (dict_get_None _ _ Hobj). run.
  simpl. now rewrite Hhit.
Qed.

Lemma for_cameras_from_passes_over (body : nat -> Camera -> M World unit)
    (pre rest : list Camera) :
  forall (i : nat) (w : World),
    (forall k c, In c pre -> body k c w = (Ret tt, w)) ->
    for_cameras_from i (pre ++ rest) body w
    = for_cameras_from (i + length pre) rest body w.
Proof.
  induction pre as [|c pre IH]; intros i w Hpre.
  - simpl. now rewrite Nat.add_0_r.
  - cbn [app for_cameras_from length].
    rewrite (bind_returns _ _ tt w w (Hpre i c (or_introl eq_refl))).
    rewrite IH by (intros k c' Hin; apply Hpre; now right).
    f_equal. lia.
Qed.

(** C6: the code breaks the claim on an alert that has no
    [detected_obj] key. For every such alert with a string type
    containing the alert tag and not "mode" and a string cam_id, the
    first camera record the alert matches gets [last_motion] stamped and
    nothing more: its [last_detected_obj] is not set to the sentinel,
    neither it nor its motion sensors are queued, the matching cameras
    after it are not visited, and no domain event is fired; the
    [KeyError] ends in the log. *)
Theorem alert_without_detected_obj_is_half_applied (K : Consts)
    (evt : gmap string value) (ty cid : string) (pre rest : list Camera)
    (c : Camera) (w : World) :
  evt !! "type" = Some (VStr ty) ->
  str_in ATTR_MODE ty = false ->
  str_in (ATTR_ALERT K) ty = true ->
  evt !! "cam_id" = Some (VStr cid) ->
  evt !! "detected_obj" = None ->
  cameras (hub w) = pre ++ c :: rest ->
  Forall (fun p => str_in cid (device_id p) = false) pre ->
  str_in cid (device_id c) = true ->
  handle_camect_event K evt w
  = (Ret tt,
     with_log (log w ++ [LogException evt (KeyError "detected_obj")])
       (with_hub (hub_with_cameras
                    (pre ++ with_last_motion (Some (clock w)) c :: rest)
                    (hub w)) w)).
Proof.
  intros Hty Hmode Halert Hcid Hobj Hcams Hpre Hhit.
  assert (Hloop : for_cameras (on_alert K evt) w
                  = (Raise (KeyError "detected_obj"),
                     with_hub (hub_with_cameras
                                 (pre ++ with_last_motion (Some (clock w)) c :: rest)
                                 (hub w)) w)).
  { unfold for_cameras.
    rewrite (bind_returns (gets (fun w => cameras (hub w))) _
               (cameras (hub w)) w w eq_refl).
    rewrite Hcams, for_cameras_from_passes_over.
    - cbn [for_cameras_from].
      apply bind_raises.
      rewrite (on_alert_missing_obj K evt cid _ c w Hcid Hobj Hhit).
      rewrite Hcams. cbn [Nat.add].
      rewrite <- (Nat.add_0_r (length pre)), alter_app_r. reflexivity.
    - intros k p Hin. apply (on_alert_passes_over K evt cid); [exact Hcid|].
      rewrite Forall_forall in Hpre. apply Hpre.
      now apply list_elem_of_In. }
  unfold handle_camect_event, handle_camect_event_body, try_except.
  rewrite (dict_get_Some _ _ _ Hty).
  rewrite (bind_returns _ _ (VStr ty) w w eq_refl).
  unfold py_in. rewrite Hmode.
  rewrite (bind_returns _ _ false w w eq_refl). rewrite Halert.
  rewrite (bind_returns _ _ true w w eq_refl).
  now rewrite (bind_raises _ _ _ w _ Hloop).
Qed.

(** The scenario of the specification: camera "cam1", enabled and not
    offline, and an alert for it without a [detected_obj] key. *)
Lemma alert_without_detected_obj_is_half_applied_witness :
  map device_id (cameras (hub home_world)) = ["cam1"] /\
  bare_alert !! "detected_obj" = None /\
  handle_camect_event spec_consts bare_alert home_world
  = (Ret tt,
     with_log [LogException bare_alert (KeyError "detected_obj")]
       (with_hub (hub_with_cameras
                    [with_last_motion (Some (clock home_world)) cam1]
                    (hub home_world)) home_world)) /\
  last_detected_obj (with_last_motion (Some (clock home_world)) cam1)
  = VStr "" /\
  VStr "" <> VStr (ATTR_UNKNOWN_OBJ spec_consts).
Proof.
  split; [reflexivity|]. split; [reflexivity|]. split.
  - apply (alert_without_detected_obj_is_half_applied spec_consts bare_alert
             "alert" "cam1" [] [] cam1 home_world); try reflexivity.
    constructor.
  - split; [reflexivity | discriminate].
Defined.
